(** * Hyperschedule scraper library: a shallow embedding of
      [hyperschedule/__init__.py] and the properties of its data model.

    The Python module is embedded function by function.  Exceptions are
    values of [exn]; a method that mutates [self] is a function from the
    object before the call to the object after it, paired with the
    call's [result], so that the state a raising call leaves behind can
    be observed. *)

From Stdlib Require Import ZArith String Ascii List Bool Lia.
From Stdlib Require Import DecimalString DecimalPos DecimalZ.
From stdpp Require Import gmap strings list fin_maps sorting.

Local Open Scope string_scope.
Local Open Scope Z_scope.

(** ** The fragment of Python the module relies on *)

Module Py.

(** The builtin exception classes that can reach the module's handlers. *)
Inductive builtin_exc : Type :=
| ValueError
| UnicodeError        (* a subclass of ValueError *)
| TypeError
| NameError
| AttributeError
| KeyError
| OverflowError
| OtherBuiltin (name : string).

(** [class MaintainerError(Exception)]: its constructor formats [msg]
    with the remaining arguments.  The embedding records the format
    template; the interpolated text is not modelled. *)
Inductive exn : Type :=
| MaintainerError (msg : string)
| PyExc (cls : builtin_exc).

(** What [except ValueError:] catches: the class and its subclasses. *)
Definition isinstance_ValueError (e : exn) : bool :=
  match e with
  | PyExc ValueError | PyExc UnicodeError => true
  | _ => false
  end.

Inductive result (A : Type) : Type :=
| Ok (a : A)
| Raise (e : exn).
Arguments Ok {A} a.
Arguments Raise {A} e.

(** A method over a mutable receiver [S]: the receiver after the call,
    and what the call returned or raised. *)
Definition M (S A : Type) : Type := S -> S * result A.

Definition ret {S A} (a : A) : M S A := fun s => (s, Ok a).
Definition raise {S A} (e : exn) : M S A := fun s => (s, Raise e).
Definition bind {S A B} (m : M S A) (k : A -> M S B) : M S B :=
  fun s =>
    match m s with
    | (s', Ok a) => k a s'
    | (s', Raise e) => (s', Raise e)
    end.
Definition get {S} : M S S := fun s => (s, Ok s).
Definition modify {S} (f : S -> S) : M S unit := fun s => (f s, Ok tt).
Definition lift {S A} (r : result A) : M S A := fun s => (s, r).

(** [if c: body] with no [else]. *)
Definition when {S} (c : bool) (body : M S unit) : M S unit :=
  if c then body else ret tt.

(** [try: body / except ValueError: handler]. *)
Definition try_except_ValueError {A} (body handler : result A) : result A :=
  match body with
  | Ok a => Ok a
  | Raise e => if isinstance_ValueError e then handler else Raise e
  end.

(** [str.upper] on ASCII letters. *)
Definition upper_ascii (c : ascii) : ascii :=
  let n := nat_of_ascii c in
  if ((97 <=? n) && (n <=? 122))%nat then ascii_of_nat (n - 32) else c.

Fixpoint upper (s : string) : string :=
  match s with
  | EmptyString => EmptyString
  | String c s' => String (upper_ascii c) (upper s')
  end.

(** [needle in haystack] on two [str]: the substring test. *)
Fixpoint str_in (needle haystack : string) : bool :=
  String.prefix needle haystack ||
  match haystack with
  | EmptyString => false
  | String _ rest => str_in needle rest
  end.

(** The comparison methods a class body provides.  [a >= b] on two
    instances of one class calls [__ge__], then the reflected [__le__];
    the [object] defaults return [NotImplemented], and when both do the
    operator raises [TypeError]. *)
Record ordering_methods (A : Type) : Type := {
  cls_name : string;
  dunder_ge : option (A -> A -> bool);
  dunder_le : option (A -> A -> bool)
}.
Arguments cls_name {A} _.
Arguments dunder_ge {A} _.
Arguments dunder_le {A} _.

Definition ge {A} (cls : ordering_methods A) (a b : A) : result bool :=
  match dunder_ge cls with
  | Some f => Ok (f a b)
  | None =>
      match dunder_le cls with
      | Some g => Ok (g b a)
      | None => Raise (PyExc TypeError)
      end
  end.

End Py.

Import Py.

Declare Scope py_scope.
Delimit Scope py_scope with py.
Notation "x <- m ;; k" := (bind m (fun x => k))
  (at level 100, m at next level, right associativity) : py_scope.
Notation "m ;;; k" := (bind m (fun _ => k))
  (at level 100, right associativity) : py_scope.

(** ** The library *)

Module Hyperschedule.

(** *** Logging: the global [log = Log()] *)

Inductive level : Type := Info | Warn.

(** One printed line: the level and the message template (the time
    stamp and the interpolated arguments are not modelled). *)
Definition log_entry : Type := (level * string)%type.

(** *** Module namespace

    A bare name inside a method that is not assigned there is looked
    up in the module's globals and then in the builtins. *)

Inductive binding : Type :=
| BModule
| BClass (name : string)
| BInstance (cls : string)
| BBuiltin.

Definition module_globals : list (string * binding) :=
  [ ("abc", BModule); ("datetime", BModule); ("dateparser", BModule);
    ("Log", BClass "Log"); ("log", BInstance "Log");
    ("MaintainerError", BClass "MaintainerError");
    ("Date", BClass "Date"); ("Time", BClass "Time");
    ("Weekdays", BClass "Weekdays"); ("Subterm", BClass "Subterm");
    ("FullTerm", BInstance "Subterm");
    ("FirstHalfTerm", BInstance "Subterm");
    ("SecondHalfTerm", BInstance "Subterm");
    ("FirstThirdTerm", BInstance "Subterm");
    ("MiddleThirdTerm", BInstance "Subterm");
    ("LastThirdTerm", BInstance "Subterm");
    ("FirstAndMiddleThirdTerms", BInstance "Subterm");
    ("MiddleAndLastThirdTerms", BInstance "Subterm");
    ("Meeting", BClass "Meeting"); ("Schedule", BClass "Schedule");
    ("Course", BClass "Course");
    ("ScraperResult", BClass "ScraperResult");
    ("Scraper", BClass "Scraper") ].

Definition builtin_types : list string :=
  [ "bool"; "bytearray"; "bytes"; "classmethod"; "complex"; "dict";
    "enumerate"; "filter"; "float"; "frozenset"; "int"; "list"; "map";
    "memoryview"; "object"; "property"; "range"; "reversed"; "set";
    "slice"; "staticmethod"; "str"; "super"; "tuple"; "type"; "zip";
    "Exception"; "ValueError"; "TypeError"; "NameError";
    "AttributeError"; "KeyError" ].

Definition builtin_functions : list string :=
  [ "abs"; "all"; "any"; "ascii"; "bin"; "breakpoint"; "callable";
    "chr"; "compile"; "delattr"; "dir"; "divmod"; "eval"; "exec";
    "format"; "getattr"; "globals"; "hasattr"; "hash"; "help"; "hex";
    "id"; "input"; "isinstance"; "issubclass"; "iter"; "len"; "locals";
    "max"; "min"; "next"; "oct"; "open"; "ord"; "pow"; "print"; "repr";
    "round"; "setattr"; "sorted"; "sum"; "vars" ].

Fixpoint assoc (name : string) (l : list (string * binding)) : option binding :=
  match l with
  | [] => None
  | (k, v) :: rest => if String.eqb name k then Some v else assoc name rest
  end.

Definition load_global (name : string) : result binding :=
  match assoc name module_globals with
  | Some b => Ok b
  | None =>
      if existsb (String.eqb name) builtin_types then Ok (BClass name)
      else if existsb (String.eqb name) builtin_functions then Ok BBuiltin
      else Raise (PyExc NameError)
  end.

(** *** Values *)

(** What [dateparser.parse] hands back: a [datetime.datetime]. *)
Record datetime : Type := {
  dt_year : Z; dt_month : Z; dt_day : Z; dt_hour : Z; dt_minute : Z
}.

Record Date : Type := { year : Z; month : Z; day : Z }.
Record Time : Type := { hour : Z; minute : Z }.

(** [self.days = set()]: a set of [str]. *)
Record Weekdays : Type := { days : gset string }.

(** [self.subterms = tuple(map(bool, subterms))]. *)
Record Subterm : Type := { subterms : list bool }.

(** [Course.__init__] has a docstring for a body: it stores none of
    its twelve arguments, so an instance is its identity only. *)
Record Course : Type := { course_oid : nat }.

(** The Python values that are handed to the constructors and setters. *)
#[warnings="-register-all"]
Inductive pyval : Type :=
| PNone
| PBool (b : bool)
| PInt (n : Z)
| PStr (s : string)
| PTuple (l : list pyval)
| PList (l : list pyval)
| PDate (d : Date)
| PTime (t : Time)
| PWeekdays (w : Weekdays)
| PSubterm (s : Subterm)
| PCourse (c : Course).

(** [bool(v)].  None of the module's classes defines [__bool__] or
    [__len__], so their instances are truthy. *)
Definition truthy (v : pyval) : bool :=
  match v with
  | PNone => false
  | PBool b => b
  | PInt n => negb (n =? 0)
  | PStr s => negb (String.eqb s "")
  | PTuple l | PList l => match l with [] => false | _ => true end
  | PDate _ | PTime _ | PWeekdays _ | PSubterm _ | PCourse _ => true
  end.

Definition is_None (v : pyval) : bool :=
  match v with PNone => true | _ => false end.

(** *** Subterm *)

(** [any(subterms)]. *)
Definition any (l : list pyval) : bool := existsb truthy l.

(** [Subterm.__init__(self, *subterms)]. *)
Definition Subterm_init (args : list pyval) : result Subterm :=
  if negb (truthy (PTuple args)) then
    Raise (MaintainerError "Subterm got no arguments")
  else if negb (any args) then
    Raise (MaintainerError "Subterm got no truthy arguments: {}")
  else
    Ok {| subterms := map truthy args |}.

Definition FullTerm := Subterm_init [PBool true].
Definition FirstHalfTerm := Subterm_init [PBool true; PBool false].
Definition SecondHalfTerm := Subterm_init [PBool false; PBool true].
Definition FirstThirdTerm := Subterm_init [PBool true; PBool false; PBool false].
Definition MiddleThirdTerm := Subterm_init [PBool false; PBool true; PBool false].
Definition LastThirdTerm := Subterm_init [PBool false; PBool false; PBool true].
Definition FirstAndMiddleThirdTerms := Subterm_init [PBool true; PBool true; PBool false].
Definition MiddleAndLastThirdTerms := Subterm_init [PBool false; PBool true; PBool true].

(** *** Date and Time *)

(** The three ways a call of [dateparser.parse] can end. *)
Inductive parse_outcome : Type :=
| Parsed (dt : datetime)
| ParsedNone
| ParseRaised (e : builtin_exc).

Section Parsing.

(** The third-party parser, [dateparser.parse]. *)
Variable dateparser_parse : string -> parse_outcome.

(** The [try] block shared by both constructors:
    [dt = dateparser.parse(string)], then
    [if dt is None: raise ValueError]. *)
Definition parse_or_ValueError (string : string) : result datetime :=
  match dateparser_parse string with
  | Parsed dt => Ok dt
  | ParsedNone => Raise (PyExc ValueError)
  | ParseRaised e => Raise (PyExc e)
  end.

(** [Date.__init__(self, string)]. *)
Definition Date_init (string : string) : result Date :=
  match try_except_ValueError (parse_or_ValueError string)
          (Raise (MaintainerError "Date got invalid string: {}")) with
  | Ok dt => Ok {| year := dt_year dt; month := dt_month dt; day := dt_day dt |}
  | Raise e => Raise e
  end.

(** [Time.__init__(self, string)]. *)
Definition Time_init (string : string) : result Time :=
  match try_except_ValueError (parse_or_ValueError string)
          (Raise (MaintainerError "Time got invalid string: {}")) with
  | Ok dt => Ok {| hour := dt_hour dt; minute := dt_minute dt |}
  | Raise e => Raise e
  end.

End Parsing.

(** Neither class body defines a comparison method: [Date] and [Time]
    each consist of [__init__] and [__str__]. *)
Definition Date_class : ordering_methods Date :=
  {| cls_name := "Date"; dunder_ge := None; dunder_le := None |}.
Definition Time_class : ordering_methods Time :=
  {| cls_name := "Time"; dunder_ge := None; dunder_le := None |}.

(** *** Weekdays *)

Definition CHARS : string := "MTWRFSU".

(** The receiver of a method that also prints through [log]. *)
Definition logged (S : Type) : Type := (S * list log_entry)%type.

Definition log_warn {S} (msg : string) : M (logged S) unit :=
  modify (fun st => (fst st, (snd st ++ [(Warn, msg)])%list)).

(** [x in obj] and [obj.add(x)] for an object found in the module
    namespace: modules, classes, the [Log] instance, the [Subterm]
    constants and builtin functions are not containers. *)
Definition binding_contains (obj : binding) (x : string) : result bool :=
  Raise (PyExc TypeError).
Definition binding_add (obj : binding) (x : string) : result unit :=
  Raise (PyExc AttributeError).

(** [Weekdays.add_day(self, day)].  The last three lines of the body
    name [days], not [self.days]. *)
Definition add_day (day : string) : M (logged Weekdays) unit :=
  let day := upper day in
  if negb (str_in day CHARS) then
    raise (MaintainerError "add_day got invalid day: {}")
  else
    (days_obj <- lift (load_global "days") ;;
     present <- lift (binding_contains days_obj day) ;;
     when present (log_warn "add_day got same day more than once: {}") ;;;
     lift (binding_add days_obj day))%py.

(** [for x in xs: body(x)]. *)
Fixpoint for_each {S A} (body : A -> M S unit) (xs : list A) : M S unit :=
  match xs with
  | [] => ret tt
  | x :: rest => (body x ;;; for_each body rest)%py
  end.

(** [Weekdays.__init__(self, days=None)]; iterating a [str] yields
    its one-character strings. *)
Definition Weekdays_init (days : option (list string)) (log : list log_entry)
  : list log_entry * result Weekdays :=
  let body :=
    match days with
    | None => ret tt
    | Some ds => for_each add_day ds
    end in
  match body ({| days := ∅ |}, log) with
  | ((self, log'), Ok _) => (log', Ok self)
  | ((_, log'), Raise e) => (log', Raise e)
  end.

(** [bool(s)] for a set: whether [len(s)] is non-zero. *)
Definition set_truthy (s : gset string) : bool := negb (Nat.eqb (size s) 0).

(** [Weekdays.is_empty(self)]: [return bool(self.days)]. *)
Definition is_empty (self : Weekdays) : bool := set_truthy (days self).

(** *** Meeting *)

Record Meeting : Type := {
  start_date : option Date;
  end_date : option Date;
  weekdays : option Weekdays;
  start_time : option Time;
  end_time : option Time;
  subterm : option Subterm;
  location : option pyval
}.

(** The attribute assignments [self.<field> = v]. *)
Definition assign_start_date (v : option Date) (m : Meeting) : Meeting :=
  {| start_date := v; end_date := end_date m; weekdays := weekdays m;
     start_time := start_time m; end_time := end_time m;
     subterm := subterm m; location := location m |}.
Definition assign_end_date (v : option Date) (m : Meeting) : Meeting :=
  {| start_date := start_date m; end_date := v; weekdays := weekdays m;
     start_time := start_time m; end_time := end_time m;
     subterm := subterm m; location := location m |}.
Definition assign_weekdays (v : option Weekdays) (m : Meeting) : Meeting :=
  {| start_date := start_date m; end_date := end_date m; weekdays := v;
     start_time := start_time m; end_time := end_time m;
     subterm := subterm m; location := location m |}.
Definition assign_start_time (v : option Time) (m : Meeting) : Meeting :=
  {| start_date := start_date m; end_date := end_date m; weekdays := weekdays m;
     start_time := v; end_time := end_time m;
     subterm := subterm m; location := location m |}.
Definition assign_end_time (v : option Time) (m : Meeting) : Meeting :=
  {| start_date := start_date m; end_date := end_date m; weekdays := weekdays m;
     start_time := start_time m; end_time := v;
     subterm := subterm m; location := location m |}.
Definition assign_subterm (v : option Subterm) (m : Meeting) : Meeting :=
  {| start_date := start_date m; end_date := end_date m; weekdays := weekdays m;
     start_time := start_time m; end_time := end_time m;
     subterm := v; location := location m |}.
Definition assign_location (v : option pyval) (m : Meeting) : Meeting :=
  {| start_date := start_date m; end_date := end_date m; weekdays := weekdays m;
     start_time := start_time m; end_time := end_time m;
     subterm := subterm m; location := v |}.

(** [Meeting._check_dates(self)]. *)
Definition _check_dates : M Meeting unit :=
  (self <- get ;;
   match start_date self, end_date self with
   | Some s, Some e =>
       not_before <- lift (ge Date_class s e) ;;
       when not_before
         (raise (MaintainerError "Meeting start date not before end date: {} >= {}"))
   | _, _ => ret tt
   end)%py.

(** [Meeting._check_times(self)]. *)
Definition _check_times : M Meeting unit :=
  (self <- get ;;
   match start_time self, end_time self with
   | Some s, Some e =>
       not_before <- lift (ge Time_class s e) ;;
       when not_before
         (raise (MaintainerError "Meeting start time not before end time: {} >= {}"))
   | _, _ => ret tt
   end)%py.

(** The setters.  [isinstance(v, C)] is the match on the constructor
    of [pyval] that carries a [C]. *)
Definition set_start_date (v : pyval) : M Meeting unit :=
  match v with
  | PDate d => (modify (assign_start_date (Some d)) ;;; _check_dates)%py
  | _ => raise (MaintainerError "set_start_date got non-Date: {}")
  end.

Definition set_end_date (v : pyval) : M Meeting unit :=
  match v with
  | PDate d => (modify (assign_end_date (Some d)) ;;; _check_dates)%py
  | _ => raise (MaintainerError "set_end_date got non-Date: {}")
  end.

Definition set_weekdays (v : pyval) : M Meeting unit :=
  match v with
  | PWeekdays w =>
      if is_empty w then raise (MaintainerError "set_weekdays got empty Weekdays")
      else modify (assign_weekdays (Some w))
  | _ => raise (MaintainerError "set_weekdays got non-Weekdays: {}")
  end.

Definition set_start_time (v : pyval) : M Meeting unit :=
  match v with
  | PTime t => (modify (assign_start_time (Some t)) ;;; _check_times)%py
  | _ => raise (MaintainerError "set_start_time got non-Time: {}")
  end.

Definition set_end_time (v : pyval) : M Meeting unit :=
  match v with
  | PTime t => (modify (assign_end_time (Some t)) ;;; _check_times)%py
  | _ => raise (MaintainerError "set_end_time got non-Time: {}")
  end.

Definition set_subterm (v : pyval) : M Meeting unit :=
  match v with
  | PSubterm s => modify (assign_subterm (Some s))
  | _ => raise (MaintainerError "set_subterm got non-Subterm: {}")
  end.

(** The class a value is an instance of, by name. *)
Definition class_of (v : pyval) : string :=
  match v with
  | PNone => "NoneType" | PBool _ => "bool" | PInt _ => "int"
  | PStr _ => "str" | PTuple _ => "tuple" | PList _ => "list"
  | PDate _ => "Date" | PTime _ => "Time" | PWeekdays _ => "Weekdays"
  | PSubterm _ => "Subterm" | PCourse _ => "Course"
  end.

(** [isinstance(v, cls)] with [cls] taken from the module namespace
    ([bool] is a subclass of [int]). *)
Definition isinstance (v : pyval) (cls : binding) : result bool :=
  match cls with
  | BClass name =>
      Ok (String.eqb name "object" || String.eqb (class_of v) name ||
          (String.eqb (class_of v) "bool" && String.eqb name "int"))
  | _ => Raise (PyExc TypeError)
  end.

(** [Meeting.set_location]: the test names [Location], which the
    module never binds. *)
Definition set_location (v : pyval) : M Meeting unit :=
  (cls <- lift (load_global "Location") ;;
   ok <- lift (isinstance v cls) ;;
   if negb ok then raise (MaintainerError "set_location got non-string: {}")
   else modify (assign_location (Some v)))%py.

Definition set_dates (start_date end_date : pyval) : M Meeting unit :=
  (set_start_date start_date ;;; set_end_date end_date)%py.

Definition set_times (start_time end_time : pyval) : M Meeting unit :=
  (set_start_time start_time ;;; set_end_time end_time)%py.

Definition blank_meeting : Meeting :=
  {| start_date := None; end_date := None; weekdays := None;
     start_time := None; end_time := None; subterm := None;
     location := None |}.

(** [Meeting.__init__]: every argument defaults to [None]. *)
Definition Meeting_init
  (start_date end_date weekdays start_time end_time subterm location : pyval)
  : result Meeting :=
  let body :=
    (when (negb (is_None start_date)) (set_start_date start_date) ;;;
     when (negb (is_None end_date)) (set_end_date end_date) ;;;
     when (negb (is_None weekdays)) (set_weekdays weekdays) ;;;
     when (negb (is_None start_time)) (set_start_time start_time) ;;;
     when (negb (is_None end_time)) (set_end_time end_time) ;;;
     when (negb (is_None subterm)) (set_subterm subterm) ;;;
     when (negb (is_None location)) (set_location location))%py in
  match body blank_meeting with
  | (self, Ok _) => Ok self
  | (_, Raise e) => Raise e
  end.

(** *** ScraperResult *)

Record ScraperResult : Type := {
  term : option pyval;
  courses : gmap string Course
}.

Definition assign_courses (cs : gmap string Course) (r : ScraperResult) : ScraperResult :=
  {| term := term r; courses := cs |}.
Definition assign_term (t : option pyval) (r : ScraperResult) : ScraperResult :=
  {| term := t; courses := courses r |}.

Section AddCourse.

(** What the attribute lookup [course.get_code] finds on the class
    of a [Course] instance, if anything. *)
Variable lookup_get_code : option (Course -> string).

(** [course.get_code()]. *)
Definition call_get_code (c : Course) : result string :=
  match lookup_get_code with
  | Some f => Ok (f c)
  | None => Raise (PyExc AttributeError)
  end.

(** The body of [ScraperResult.add_course(self, course)]. *)
Definition add_course_with (course : pyval) : M (logged ScraperResult) unit :=
  match course with
  | PCourse c =>
      (code <- lift (call_get_code c) ;;
       st <- get ;;
       when (bool_decide (is_Some (courses (fst st) !! code)))
         (log_warn "multiple courses with same code: {}") ;;;
       modify (fun st => (assign_courses (<[code := c]> (courses (fst st))) (fst st),
                          snd st)))%py
  | _ => raise (MaintainerError "add_course got non-course: {}")
  end.

End AddCourse.

(** [class Course]: the body is a docstring, [__init__] and a
    [# TODO: implement]; it defines no [get_code], and [object] has
    none to inherit. *)
Definition Course_get_code : option (Course -> string) := None.

(** [ScraperResult.add_course]. *)
Definition add_course : pyval -> M (logged ScraperResult) unit :=
  add_course_with Course_get_code.

(** [ScraperResult.set_term]: the test names [Term], which the module
    never binds. *)
Definition set_term (v : pyval) : M (logged ScraperResult) unit :=
  (cls <- lift (load_global "Term") ;;
   ok <- lift (isinstance v cls) ;;
   if negb ok then raise (MaintainerError "set_term got non-term: {}")
   else modify (fun st => (assign_term (Some v) (fst st), snd st)))%py.

(** [ScraperResult.__init__(self, term=None, courses=None)]. *)
Definition ScraperResult_init (term : pyval) (courses : option (list pyval))
  (log : list log_entry) : list log_entry * result ScraperResult :=
  let body :=
    (when (negb (is_None term)) (set_term term) ;;;
     match courses with
     | None => ret tt
     | Some cs => for_each add_course cs
     end)%py in
  match body ({| term := None; courses := ∅ |}, log) with
  | ((self, log'), Ok _) => (log', Ok self)
  | ((_, log'), Raise e) => (log', Raise e)
  end.

(** *** The [__str__] methods *)

(** [str.format] on an [int] argument for a bare replacement field:
    the decimal numeral, with a minus sign when negative. *)
Definition format_int (n : Z) : string :=
  NilZero.string_of_int (Z.to_int n).

(** [sep.join(parts)]. *)
Fixpoint join (sep : string) (parts : list string) : string :=
  match parts with
  | [] => ""
  | [p] => p
  | p :: rest => p ++ sep ++ join sep rest
  end.

(** [Date.__str__(self)]: the template "{}-{}-{}". *)
Definition Date_str (self : Date) : string :=
  format_int (year self) ++ "-" ++ format_int (month self) ++ "-"
    ++ format_int (day self).

(** [Time.__str__(self)]: the template "{}:{} {}"; Python's [%]
    takes the sign of the divisor, as [Z.modulo] does. *)
Definition Time_str (self : Time) : string :=
  let hour12 := (hour self - 1) mod 12 + 1 in
  let minute := minute self in
  let ampm := if hour self <? 12 then "AM" else "PM" in
  format_int hour12 ++ ":" ++ format_int minute ++ " " ++ ampm.

(** [haystack.index(needle)]: the lowest index at which [needle]
    starts, [ValueError] when there is none. *)
Fixpoint str_find (needle haystack : string) : option nat :=
  if String.prefix needle haystack then Some 0%nat
  else
    match haystack with
    | EmptyString => None
    | String _ rest => option_map S (str_find needle rest)
    end.

Definition str_index (haystack needle : string) : result nat :=
  match str_find needle haystack with
  | Some i => Ok i
  | None => Raise (PyExc ValueError)
  end.

(** [sorted(xs, key=f)] evaluates the key of every element, in order,
    and then sorts stably on the keys.  A stable sort has one possible
    outcome; insertion in front of the first element whose key is not
    smaller computes it. *)
Fixpoint keyed (key : string -> result nat) (xs : list string)
  : result (list (nat * string)) :=
  match xs with
  | [] => Ok []
  | x :: rest =>
      match key x with
      | Raise e => Raise e
      | Ok k =>
          match keyed key rest with
          | Raise e => Raise e
          | Ok ks => Ok ((k, x) :: ks)
          end
      end
  end.

Fixpoint insert_keyed (kx : nat * string) (sorted : list (nat * string))
  : list (nat * string) :=
  match sorted with
  | [] => [kx]
  | ky :: rest =>
      if (fst kx <=? fst ky)%nat then kx :: ky :: rest
      else ky :: insert_keyed kx rest
  end.

Fixpoint sort_keyed (kxs : list (nat * string)) : list (nat * string) :=
  match kxs with
  | [] => []
  | kx :: rest => insert_keyed kx (sort_keyed rest)
  end.

Definition sorted_by (key : string -> result nat) (xs : list string)
  : result (list string) :=
  match keyed key xs with
  | Raise e => Raise e
  | Ok kxs => Ok (map snd (sort_keyed kxs))
  end.

(** [Weekdays.__str__(self)], for the order [iteration] in which the
    set hands out its elements (a set's iteration order is not fixed by
    the language). *)
Definition Weekdays_str_in (iteration : list string) : result string :=
  match sorted_by (str_index CHARS) iteration with
  | Raise e => Raise e
  | Ok ds => Ok (join "" ds)
  end.

Definition Weekdays_str (self : Weekdays) : result string :=
  Weekdays_str_in (elements (days self)).

(** [enumerate(xs)], counting from [start]. *)
Fixpoint enumerate_from {A} (start : nat) (xs : list A) : list (nat * A) :=
  match xs with
  | [] => []
  | x :: rest => (start, x) :: enumerate_from (S start) rest
  end.

(** The list comprehension of [Subterm.__str__]: one "idx+1/len" per
    included slot. *)
Definition fractions (self : Subterm) : list string :=
  flat_map
    (fun '(idx, included) =>
       if (included : bool) then
         [format_int (Z.of_nat idx + 1) ++ "/"
            ++ format_int (Z.of_nat (length (subterms self)))]
       else [])
    (enumerate_from 0 (subterms self)).

(** [Subterm.__str__(self)]. *)
Definition Subterm_str (self : Subterm) : string :=
  join ", " (fractions self).

End Hyperschedule.

(** ** The refinement orchestrator

    The module under verification holds the scraper contract
    ([Scraper.run], [Scraper.refine]) but not the component that drives
    it; that component is described in the specification only. *)

Module Orchestrator.

(** Ascending order on course codes. *)
Definition code_le (a b : string) : Prop := String.leb a b = true.

#[export] Instance code_le_dec (a b : string) : Decision (code_le a b) :=
  decide (String.leb a b = true).

Section Model.

(** Modelled from the spec: the Course payload of the orchestrator.
    A course is identified by its code, the key under which it is
    stored; everything else about it is left abstract. *)
Context {Course : Type}.

(** Modelled from the spec: "the term being scraped plus a mapping
    from course code to Course". *)
Record ScraperResult : Type := {
  term : string;
  courses : gmap string Course
}.

(** Modelled from the spec: the Checkpoint Store's record, "the last
    known ScraperResult snapshot, and the set of course codes still
    pending refinement". *)
Record Checkpoint : Type := {
  snapshot : ScraperResult;
  pending : gset string
}.

(** Modelled from the spec: the Checkpoint Store, a durable mapping
    keyed by scraper identity.  [saves] counts the [save] operations
    performed, so that a write is observable even when it stores
    what was already there. *)
Record Store : Type := {
  contents : gmap string Checkpoint;
  saves : nat
}.

(** Modelled from the spec: [load(scraperID) -> Checkpoint | NotFound]. *)
Definition load (id : string) (st : Store) : option Checkpoint :=
  contents st !! id.

(** Modelled from the spec: [save(scraperID, Checkpoint)], an atomic
    replace. *)
Definition save (id : string) (cp : Checkpoint) (st : Store) : Store :=
  {| contents := <[id := cp]> (contents st); saves := S (saves st) |}.

(** Modelled from the spec: the three ends of one [refine(course)]
    call: a replacement Course, [None] ("no change, use input
    unchanged"), or a failure. *)
Inductive refine_result : Type :=
| Refined (c : Course)
| Unchanged
| RefineError.

(** Modelled from the spec: the terminal states of the state machine
    [Listing -> Merging -> Refining -> Finalizing -> {Completed,
    Exhausted}]. *)
Inductive terminal : Type := Completed | Exhausted.

(** Modelled from the spec: what one invocation ends with: the
    terminal error state of Listing, or a terminal state with the
    merged result and the codes still pending. *)
Inductive outcome : Type :=
| ListingFailed
| Finished (t : terminal) (result : ScraperResult) (remaining : gset string).

(** Modelled from the spec: Merging, for one course of the new
    listing: "for every course code in the new result that also
    exists in the checkpoint's prior snapshot and is not in the
    checkpoint's pending set, copy over the prior (already-refined)
    fields rather than the coarse fields from this run()". *)
Definition merge_course (cp : Checkpoint) (code : string) (coarse : Course) : Course :=
  if decide (code ∈ pending cp) then coarse
  else default coarse (courses (snapshot cp) !! code).

(** Modelled from the spec: the Merging state.  Codes absent from
    the new listing are dropped; codes newly appearing are added to
    the pending set.  With no checkpoint every code is new. *)
Definition merging (cp : option Checkpoint) (new : ScraperResult)
  : ScraperResult * gset string :=
  match cp with
  | None => (new, dom (courses new))
  | Some cp =>
      ({| term := term new;
          courses := map_imap (fun code c => Some (merge_course cp code c))
                       (courses new) |},
       (pending cp ∩ dom (courses new))
         ∪ (dom (courses new) ∖ dom (courses (snapshot cp))))
  end.

(** Modelled from the spec: one refinement task: "call
    refine(course), on success merge the returned Course (or keep
    unchanged on None) and remove the code from pending; on failure,
    log and leave the code pending for the next invocation". *)
Definition refine_task (refine : Course -> refine_result) (code : string)
  (st : ScraperResult * gset string) : ScraperResult * gset string :=
  match courses (fst st) !! code with
  | None => st
  | Some c =>
      match refine c with
      | Refined c' =>
          ({| term := term (fst st); courses := <[code := c']> (courses (fst st)) |},
           snd st ∖ {[code]})
      | Unchanged => (fst st, snd st ∖ {[code]})
      | RefineError => st
      end
  end.

(** Modelled from the spec: the dispatch order, "ascending by code". *)
Definition ascending (codes : gset string) : list string :=
  merge_sort code_le (elements codes).

(** Modelled from the spec: the Refining state.  The monotonic
    deadline enters as [dispatched], the number of tasks handed to
    the worker pool before it elapses: "once the deadline elapses,
    in-flight tasks are allowed to finish but no new tasks are
    dispatched".  The pool's completion order is not modelled, the
    "final merged result is order-independent because each code's
    slot is written at most once per invocation". *)
Definition refining (refine : Course -> refine_result) (dispatched : nat)
  (st : ScraperResult * gset string) : ScraperResult * gset string :=
  foldl (fun acc code => refine_task refine code acc) st
    (take dispatched (ascending (snd st))).

(** Modelled from the spec: the Finalizing state: "if pending is now
    empty, transition to Completed and do not write a checkpoint
    [...] If pending is non-empty [...], transition to Exhausted,
    persist a Checkpoint containing the merged ScraperResult snapshot
    and the remaining pending set, and return the merged result". *)
Definition finalizing (id : string) (st : ScraperResult * gset string)
  (store : Store) : Store * outcome :=
  if decide (snd st = ∅) then (store, Finished Completed (fst st) (snd st))
  else (save id {| snapshot := fst st; pending := snd st |} store,
        Finished Exhausted (fst st) (snd st)).

(** Modelled from the spec: one invocation of the orchestrator for
    the scraper [id].  [listing] is what this invocation's call of
    [run()] produced ([None] when it failed: "transition to a
    terminal error state; nothing is persisted"). *)
Definition invoke (id : string) (listing : option ScraperResult)
  (refine : Course -> refine_result) (dispatched : nat) (store : Store)
  : Store * outcome :=
  match listing with
  | None => (store, ListingFailed)
  | Some new =>
      finalizing id (refining refine dispatched (merging (load id store) new)) store
  end.

End Model.

Arguments ScraperResult : clear implicits.
Arguments Checkpoint : clear implicits.
Arguments Store : clear implicits.
Arguments refine_result : clear implicits.
Arguments outcome : clear implicits.

End Orchestrator.

(** ** Vocabulary of the specification and sample data *)

Import Hyperschedule.

(** The parser "finds no interpretable date": it returns [None], or it
    rejects the input with a [ValueError]. *)
Definition uninterpretable (parse : string -> parse_outcome) (s : string) : Prop :=
  parse s = ParsedNone \/
  exists e, parse s = ParseRaised e /\ isinstance_ValueError (PyExc e) = true.

(** A concrete parser for examples: it reads "2020-01-15" and "09:30",
    returns [None] on the empty string and raises otherwise. *)
Definition sample_parse (s : string) : parse_outcome :=
  if String.eqb s "2020-01-15" then
    Parsed {| dt_year := 2020; dt_month := 1; dt_day := 15; dt_hour := 0; dt_minute := 0 |}
  else if String.eqb s "09:30" then
    Parsed {| dt_year := 2026; dt_month := 11; dt_day := 4; dt_hour := 9; dt_minute := 30 |}
  else if String.eqb s "" then ParsedNone
  else if String.eqb s "99999999999999" then ParseRaised OverflowError
  else ParseRaised ValueError.

(** "start Date strictly precedes end Date": calendar order. *)
Definition Date_before (a b : Date) : bool :=
  (year a <? year b) ||
  ((year a =? year b) &&
   ((month a <? month b) || ((month a =? month b) && (day a <? day b)))).

(** "start Time strictly precedes end Time": order within the day. *)
Definition Time_before (a b : Time) : bool :=
  (hour a <? hour b) || ((hour a =? hour b) && (minute a <? minute b)).

(** The Meeting invariant in the specification's words: both dates set
    implies start before end, both times set implies start before end. *)
Definition dates_ordered (m : Meeting) : bool :=
  match start_date m, end_date m with
  | Some s, Some e => Date_before s e
  | _, _ => true
  end.

Definition times_ordered (m : Meeting) : bool :=
  match start_time m, end_time m with
  | Some s, Some e => Time_before s e
  | _, _ => true
  end.

Definition jan_1 : Date := {| year := 2020; month := 1; day := 1 |}.
Definition may_1 : Date := {| year := 2020; month := 5; day := 1 |}.
Definition nine_am : Time := {| hour := 9; minute := 0 |}.
Definition ten_am : Time := {| hour := 10; minute := 0 |}.

(** [Weekdays()] and a set holding Monday. *)
Definition no_days : Weekdays := {| days := ∅ |}.
Definition monday_only : Weekdays := {| days := {["M"]} |}.

Definition empty_result : ScraperResult := {| term := None; courses := ∅ |}.

(** Sample data for the orchestrator: courses carried as strings. *)
Definition one_course : Orchestrator.ScraperResult string :=
  {| Orchestrator.term := "FA2020";
     Orchestrator.courses := {[ "CS 5" := "coarse" ]} |}.

Definition two_courses : Orchestrator.ScraperResult string :=
  {| Orchestrator.term := "FA2020";
     Orchestrator.courses := <[ "CS 60" := "coarse" ]> {[ "CS 5" := "coarse" ]} |}.

Definition three_courses : Orchestrator.ScraperResult string :=
  {| Orchestrator.term := "FA2020";
     Orchestrator.courses :=
       <[ "CS 70" := "coarse" ]> (<[ "CS 60" := "coarse" ]> {[ "CS 5" := "coarse" ]}) |}.

(** A [refine] that always succeeds: it returns [None] for every course. *)
Definition always_unchanged (c : string) : Orchestrator.refine_result string :=
  Orchestrator.Unchanged.

Definition empty_store : Orchestrator.Store string :=
  {| Orchestrator.contents := ∅; Orchestrator.saves := 0 |}.

(** The seven one-letter day codes, in the order of [CHARS]. *)
Definition week_letters : list string := ["M"; "T"; "W"; "R"; "F"; "S"; "U"].

(** The setters of [Meeting], to speak of any one of them, and of
    sequences of calls. *)
Inductive setter : Type :=
| SetStartDate | SetEndDate | SetWeekdays | SetStartTime | SetEndTime
| SetSubterm | SetLocation.

Definition call_setter (f : setter) : pyval -> M Meeting unit :=
  match f with
  | SetStartDate => set_start_date
  | SetEndDate => set_end_date
  | SetWeekdays => set_weekdays
  | SetStartTime => set_start_time
  | SetEndTime => set_end_time
  | SetSubterm => set_subterm
  | SetLocation => set_location
  end.


(** What the constructor and the setters can leave behind when every
    call returns: at most one date, at most one time, no non-empty
    [Weekdays] and no location. *)
Definition half_built (m : Meeting) : Prop :=
  (start_date m = None \/ end_date m = None) /\
  (start_time m = None \/ end_time m = None) /\
  (forall w, weekdays m = Some w -> days w = ∅) /\
  location m = None.

(** The log line [add_course] prints on a collision. *)
Definition collision_warning : log_entry :=
  (Warn, "multiple courses with same code: {}").

(** A field of a date or time as Python's [datetime] allows it. *)
Definition valid_Date (d : Date) : Prop :=
  0 <= year d /\ 0 <= month d /\ 0 <= day d.
Definition valid_Time (t : Time) : Prop :=
  0 <= hour t < 24 /\ 0 <= minute t.

(** Decimal digits, to speak of the numerals the [__str__] methods
    print. *)
Definition is_digit (c : ascii) : bool :=
  let n := nat_of_ascii c in ((48 <=? n) && (n <=? 57))%nat.

Fixpoint all_digits (s : string) : bool :=
  match s with
  | EmptyString => true
  | String c rest => is_digit c && all_digits rest
  end.

(** The sort key of [Weekdays.__str__] as a total function, and the
    order on keyed elements. *)
Definition week_index (d : string) : nat := default 0%nat (str_find d CHARS).

Definition keyed_day (d : string) : nat * string := (week_index d, d).

Definition key_le (a b : nat * string) : Prop := (fst a <= fst b)%nat.

(** The days of a [Weekdays], one letter each, in the order of the week. *)
Definition in_week_order (w : Weekdays) : list string :=
  filter (fun d => d ∈ days w) week_letters.

Definition monday_wednesday : Weekdays := {| days := {["W"]} ∪ {["M"]} |}.

(** One entry of [Subterm.__str__], and the positions of the included
    slots, counted from [start]. *)
Definition fraction (n idx : nat) : string :=
  format_int (Z.of_nat idx + 1) ++ "/" ++ format_int (Z.of_nat n).

Fixpoint included_from (start : nat) (slots : list bool) : list nat :=
  match slots with
  | [] => []
  | true :: rest => start :: included_from (S start) rest
  | false :: rest => included_from (S start) rest
  end.

(** * Properties *)

(** ** Subterm *)

Section SubtermFacts.

Lemma any_true_Exists (args : list pyval) :
  any args = true <-> Exists (fun a => truthy a = true) args.
Proof.
  unfold any. induction args as [|a args IH]; simpl.
  - split; [discriminate | intros H; inversion H].
  - rewrite orb_true_iff, IH, Exists_cons. reflexivity.
Qed.

Lemma any_false_Forall (args : list pyval) :
  any args = false <-> Forall (fun a => truthy a = false) args.
Proof.
  unfold any. induction args as [|a args IH]; simpl.
  - split; [constructor | reflexivity].
  - rewrite orb_false_iff, IH, Forall_cons. reflexivity.
Qed.

Lemma Subterm_init_cases (args : list pyval) :
  Subterm_init args =
    match args with
    | [] => Raise (MaintainerError "Subterm got no arguments")
    | _ :: _ =>
        if any args then Ok {| subterms := map truthy args |}
        else Raise (MaintainerError "Subterm got no truthy arguments: {}")
    end.
Proof.
  unfold Subterm_init. destruct args as [|a args]; [reflexivity|].
  change (truthy (PTuple (a :: args))) with true. cbv beta iota delta [negb].
  destruct (any (a :: args)); reflexivity.
Qed.

End SubtermFacts.

(** C4.  For every argument list given to [Subterm]: if the list is
    non-empty and at least one argument is truthy, construction
    succeeds; if the list is empty or every argument is falsy,
    construction fails with [MaintainerError] (the specification's
    ConfigError). *)
Theorem Subterm_init_succeeds_or_fails (args : list pyval) :
  (args <> [] /\ Exists (fun a => truthy a = true) args ->
     exists s, Subterm_init args = Ok s) /\
  (args = [] \/ Forall (fun a => truthy a = false) args ->
     exists msg, Subterm_init args = Raise (MaintainerError msg)).
Proof.
  rewrite Subterm_init_cases. split.
  - intros [Hne Hex]. destruct args as [|a args]; [congruence|].
    apply any_true_Exists in Hex. rewrite Hex. eauto.
  - intros [-> | Hall]; [eauto|].
    destruct args as [|a args]; [eauto|].
    apply any_false_Forall in Hall. rewrite Hall. eauto.
Qed.

(** C8.  The named constants are built by the general constructor with
    the advertised slots. *)
Theorem named_subterm_constants :
  FullTerm = Ok {| subterms := [true] |} /\
  FirstHalfTerm = Ok {| subterms := [true; false] |} /\
  SecondHalfTerm = Ok {| subterms := [false; true] |} /\
  FirstThirdTerm = Ok {| subterms := [true; false; false] |} /\
  MiddleThirdTerm = Ok {| subterms := [false; true; false] |} /\
  LastThirdTerm = Ok {| subterms := [false; false; true] |} /\
  FirstAndMiddleThirdTerms = Ok {| subterms := [true; true; false] |} /\
  MiddleAndLastThirdTerms = Ok {| subterms := [false; true; true] |}.
Proof. repeat split; reflexivity. Qed.

(** C9.  A successful construction stores a tuple as long as the
    argument list whose elements are the boolean coercions of the
    arguments, position by position. *)
Theorem Subterm_init_stores_coercions (args : list pyval) (s : Subterm) :
  Subterm_init args = Ok s ->
  length (subterms s) = length args /\
  forall (i : nat) (a : pyval),
    args !! i = Some a -> subterms s !! i = Some (truthy a).
Proof.
  rewrite Subterm_init_cases. intros H.
  assert (Hs : subterms s = map truthy args).
  { destruct args as [|a args]; [discriminate|].
    destruct (any (a :: args)); [|discriminate].
    injection H as <-. reflexivity. }
  rewrite Hs. split.
  - apply length_map.
  - intros i a Hi. rewrite list_lookup_fmap, Hi. reflexivity.
Qed.

Lemma Subterm_init_stores_coercions_witness :
  Subterm_init [PInt 2; PStr ""; PNone; PStr "x"]
    = Ok {| subterms := [true; false; false; true] |} /\
  (length [true; false; false; true] = length [PInt 2; PStr ""; PNone; PStr "x"] /\
   forall (i : nat) (a : pyval),
     [PInt 2; PStr ""; PNone; PStr "x"] !! i = Some a ->
     [true; false; false; true] !! i = Some (truthy a)).
Proof.
  split; [reflexivity|].
  apply (Subterm_init_stores_coercions
           [PInt 2; PStr ""; PNone; PStr "x"]
           {| subterms := [true; false; false; true] |}).
  reflexivity.
Defined.

(** ** Date and Time *)

Section ParsingFacts.

Variable parse : string -> parse_outcome.

Lemma try_block_cases (s : string) (handler : result datetime) :
  (exists dt, parse s = Parsed dt /\
     try_except_ValueError (parse_or_ValueError parse s) handler = Ok dt) \/
  (uninterpretable parse s /\
     try_except_ValueError (parse_or_ValueError parse s) handler = handler) \/
  (exists e, parse s = ParseRaised e /\ isinstance_ValueError (PyExc e) = false /\
     try_except_ValueError (parse_or_ValueError parse s) handler = Raise (PyExc e)).
Proof.
  unfold uninterpretable, parse_or_ValueError.
  destruct (parse s) as [dt| |e] eqn:Hp; simpl.
  - left. eauto.
  - right. left. split; [left|]; reflexivity.
  - destruct (isinstance_ValueError (PyExc e)) eqn:Hv.
    + right. left. split; [right; eauto|].
      simpl in Hv. rewrite Hv. reflexivity.
    + right. right. exists e. simpl in Hv. rewrite Hv. auto.
Qed.

Lemma Date_init_spec (s : string) :
  (uninterpretable parse s <->
     exists msg, Date_init parse s = Raise (MaintainerError msg)) /\
  (forall d, Date_init parse s = Ok d <->
     exists dt, parse s = Parsed dt /\
       d = {| year := dt_year dt; month := dt_month dt; day := dt_day dt |}).
Proof.
  unfold Date_init.
  destruct (try_block_cases s (Raise (MaintainerError "Date got invalid string: {}")))
    as [(dt & Hp & ->) | [(Hu & ->) | (e & Hp & Hv & ->)]].
  - split.
    + split; [|intros (msg & ?); discriminate].
      intros [H | (e & H & _)]; congruence.
    + intros d. split.
      * intros [= <-]. eauto.
      * intros (dt' & Hp' & ->). congruence.
  - split.
    + split; eauto.
    + intros d. split; [discriminate|].
      intros (dt & Hp & _). destruct Hu as [H | (e & H & _)]; congruence.
  - split.
    + split; [|intros (msg & ?); discriminate].
      intros [H | (e' & H & Hv')]; [congruence|].
      assert (e' = e) as -> by congruence. congruence.
    + intros d. split; [discriminate|].
      intros (dt & Hp' & _). congruence.
Qed.

Lemma Time_init_spec (s : string) :
  (uninterpretable parse s <->
     exists msg, Time_init parse s = Raise (MaintainerError msg)) /\
  (forall t, Time_init parse s = Ok t <->
     exists dt, parse s = Parsed dt /\
       t = {| hour := dt_hour dt; minute := dt_minute dt |}).
Proof.
  unfold Time_init.
  destruct (try_block_cases s (Raise (MaintainerError "Time got invalid string: {}")))
    as [(dt & Hp & ->) | [(Hu & ->) | (e & Hp & Hv & ->)]].
  - split.
    + split; [|intros (msg & ?); discriminate].
      intros [H | (e & H & _)]; congruence.
    + intros t. split.
      * intros [= <-]. eauto.
      * intros (dt' & Hp' & ->). congruence.
  - split.
    + split; eauto.
    + intros t. split; [discriminate|].
      intros (dt & Hp & _). destruct Hu as [H | (e & H & _)]; congruence.
  - split.
    + split; [|intros (msg & ?); discriminate].
      intros [H | (e' & H & Hv')]; [congruence|].
      assert (e' = e) as -> by congruence. congruence.
    + intros t. split; [discriminate|].
      intros (dt & Hp' & _). congruence.
Qed.

End ParsingFacts.

(** C5.  [Date] and [Time] construction from a string fails with
    [MaintainerError] (the specification's ParseError) exactly when the
    parser returns nothing or rejects the input with a [ValueError]; it
    succeeds exactly when the parser returns a datetime, and the
    constructed value then carries the parsed fields.  Construction is
    a function of the string alone: a failure touches no other value. *)
Theorem Date_Time_init_ParseError_iff
  (parse : string -> parse_outcome) (s : string) :
  ((uninterpretable parse s <->
      exists msg, Date_init parse s = Raise (MaintainerError msg)) /\
   (forall d, Date_init parse s = Ok d <->
      exists dt, parse s = Parsed dt /\
        d = {| year := dt_year dt; month := dt_month dt; day := dt_day dt |})) /\
  ((uninterpretable parse s <->
      exists msg, Time_init parse s = Raise (MaintainerError msg)) /\
   (forall t, Time_init parse s = Ok t <->
      exists dt, parse s = Parsed dt /\
        t = {| hour := dt_hour dt; minute := dt_minute dt |})).
Proof. split; [apply Date_init_spec | apply Time_init_spec]. Qed.

Example Date_init_sample :
  Date_init sample_parse "2020-01-15" = Ok {| year := 2020; month := 1; day := 15 |} /\
  Time_init sample_parse "09:30" = Ok {| hour := 9; minute := 30 |} /\
  Date_init sample_parse "" = Raise (MaintainerError "Date got invalid string: {}") /\
  Time_init sample_parse "soon" = Raise (MaintainerError "Time got invalid string: {}") /\
  Date_init sample_parse "99999999999999" = Raise (PyExc OverflowError).
Proof. repeat split; reflexivity. Qed.

(** ** Meeting *)

(** C10.  [set_subterm] on a [Subterm] returns normally, stores the
    value in the [subterm] field and leaves the six other fields as
    they were; this holds for every receiver, so no check of the dates
    or times is involved. *)
Theorem set_subterm_frame (m : Meeting) (s : Subterm) :
  exists m',
    set_subterm (PSubterm s) m = (m', Ok tt) /\
    subterm m' = Some s /\
    start_date m' = start_date m /\
    end_date m' = end_date m /\
    weekdays m' = weekdays m /\
    start_time m' = start_time m /\
    end_time m' = end_time m /\
    location m' = location m.
Proof.
  exists (assign_subterm (Some s) m). repeat split.
Qed.

(** *** The date and time checks

    [Date] and [Time] provide no ordering method, so the comparison in
    [_check_dates] and [_check_times] raises as soon as both ends are
    set, whatever their order; the setter has assigned the attribute by
    then. *)

Lemma ge_Date_raises (a b : Date) : ge Date_class a b = Raise (PyExc TypeError).
Proof. reflexivity. Qed.

Lemma ge_Time_raises (a b : Time) : ge Time_class a b = Raise (PyExc TypeError).
Proof. reflexivity. Qed.

Lemma set_end_date_after_start (m : Meeting) (s e : Date) :
  start_date m = Some s ->
  set_end_date (PDate e) m = (assign_end_date (Some e) m, Raise (PyExc TypeError)).
Proof.
  intros Hs. unfold set_end_date, bind, modify, _check_dates, bind, get, lift.
  simpl. rewrite Hs. reflexivity.
Qed.

Lemma set_start_date_before_end (m : Meeting) (s e : Date) :
  end_date m = Some e ->
  set_start_date (PDate s) m = (assign_start_date (Some s) m, Raise (PyExc TypeError)).
Proof.
  intros He. unfold set_start_date, bind, modify, _check_dates, bind, get, lift.
  simpl. rewrite He. reflexivity.
Qed.

Lemma set_end_time_after_start (m : Meeting) (s e : Time) :
  start_time m = Some s ->
  set_end_time (PTime e) m = (assign_end_time (Some e) m, Raise (PyExc TypeError)).
Proof.
  intros Hs. unfold set_end_time, bind, modify, _check_times, bind, get, lift.
  simpl. rewrite Hs. reflexivity.
Qed.

(** A meeting with one end set accepts it: partially built meetings are
    legal. *)
Lemma set_start_date_alone (m : Meeting) (s : Date) :
  end_date m = None ->
  set_start_date (PDate s) m = (assign_start_date (Some s) m, Ok tt).
Proof.
  intros He. unfold set_start_date, bind, modify, _check_dates, bind, get.
  simpl. rewrite He. reflexivity.
Qed.

(** C1.  The code at the failing inputs.  Ending a meeting that starts
    on 1 May on 1 January raises [TypeError], not [MaintainerError], and
    leaves the inverted end date stored; so does [set_end_time] for
    inverted times; and the well-ordered pair 1 January - 1 May is
    refused with the same [TypeError], by the setters and by the
    constructor. *)
Theorem Meeting_checks_raise_TypeError :
  Date_before may_1 jan_1 = false /\
  set_end_date (PDate jan_1) (assign_start_date (Some may_1) blank_meeting)
    = (assign_end_date (Some jan_1) (assign_start_date (Some may_1) blank_meeting),
       Raise (PyExc TypeError)) /\
  dates_ordered
    (fst (set_end_date (PDate jan_1) (assign_start_date (Some may_1) blank_meeting)))
    = false /\
  Time_before ten_am nine_am = false /\
  set_times (PTime ten_am) (PTime nine_am) blank_meeting
    = (assign_end_time (Some nine_am) (assign_start_time (Some ten_am) blank_meeting),
       Raise (PyExc TypeError)) /\
  Date_before jan_1 may_1 = true /\
  set_dates (PDate jan_1) (PDate may_1) blank_meeting
    = (assign_end_date (Some may_1) (assign_start_date (Some jan_1) blank_meeting),
       Raise (PyExc TypeError)) /\
  Meeting_init (PDate jan_1) (PDate may_1) PNone PNone PNone PNone PNone
    = Raise (PyExc TypeError).
Proof. repeat split; reflexivity. Qed.

(** ** Weekdays *)

Lemma load_global_days : load_global "days" = Raise (PyExc NameError).
Proof. reflexivity. Qed.

Lemma load_global_Location : load_global "Location" = Raise (PyExc NameError).
Proof. reflexivity. Qed.

(** [add_day] never returns: an invalid day raises [MaintainerError], a
    valid one raises [NameError]; the set and the log stay as they were. *)
Lemma add_day_always_raises (day : string) (st : logged Weekdays) :
  add_day day st =
    (st, Raise (if str_in (upper day) CHARS then PyExc NameError
                else MaintainerError "add_day got invalid day: {}")).
Proof.
  unfold add_day. destruct (str_in (upper day) CHARS); simpl.
  - unfold bind, lift. rewrite load_global_days. reflexivity.
  - reflexivity.
Qed.

(** C2.  The code at the failing input.  Adding Monday to an empty
    [Weekdays] raises [NameError] and adds nothing; adding it to a set
    that already holds Monday raises the same error without a warning;
    the constructor called on "MWF" fails the same way. *)
Theorem add_day_raises_NameError :
  add_day "M" (no_days, []) = ((no_days, []), Raise (PyExc NameError)) /\
  add_day "m" (monday_only, []) = ((monday_only, []), Raise (PyExc NameError)) /\
  Weekdays_init (Some ["M"; "W"; "F"]) [] = ([], Raise (PyExc NameError)) /\
  Weekdays_init None [] = ([], Ok no_days).
Proof.
  rewrite !add_day_always_raises. repeat split; reflexivity.
Qed.

Lemma is_empty_inverted (w : Weekdays) :
  is_empty w = negb (bool_decide (days w = ∅)).
Proof.
  unfold is_empty, set_truthy. f_equal.
  destruct (Nat.eqb_spec (size (days w)) 0) as [H | H].
  - symmetry. apply bool_decide_eq_true. apply size_empty_iff in H.
    apply leibniz_equiv in H. exact H.
  - symmetry. apply bool_decide_eq_false. intros Hempty. apply H.
    rewrite Hempty. apply size_empty.
Qed.

(** [set_weekdays] stores the empty set and refuses every other one. *)
Lemma set_weekdays_inverted (m : Meeting) (w : Weekdays) :
  set_weekdays (PWeekdays w) m =
    if bool_decide (days w = ∅) then (assign_weekdays (Some w) m, Ok tt)
    else (m, Raise (MaintainerError "set_weekdays got empty Weekdays")).
Proof.
  unfold set_weekdays. rewrite is_empty_inverted.
  destruct (bool_decide (days w = ∅)); reflexivity.
Qed.

(** C3.  The code at the failing inputs.  [set_weekdays] stores an empty
    [Weekdays], and raises "set_weekdays got empty Weekdays" for the set
    that holds Monday. *)
Theorem set_weekdays_accepts_empty :
  is_empty no_days = false /\
  set_weekdays (PWeekdays no_days) blank_meeting
    = (assign_weekdays (Some no_days) blank_meeting, Ok tt) /\
  Meeting_init PNone PNone (PWeekdays no_days) PNone PNone PNone PNone
    = Ok (assign_weekdays (Some no_days) blank_meeting) /\
  is_empty monday_only = true /\
  set_weekdays (PWeekdays monday_only) blank_meeting
    = (blank_meeting, Raise (MaintainerError "set_weekdays got empty Weekdays")).
Proof. repeat split; vm_compute; reflexivity. Qed.

(** ** ScraperResult *)

Section AddCourseFacts.

Variable get_code : Course -> string.

(** With a [Course] class that provides [get_code], the body of
    [add_course] stores the course under its code, warns exactly when
    the code is already a key, and leaves every other key alone. *)
Lemma add_course_with_get_code (c : Course) (r : ScraperResult) (log : list log_entry) :
  add_course_with (Some get_code) (PCourse c) (r, log) =
    ((assign_courses (<[get_code c := c]> (courses r)) r,
      if bool_decide (is_Some (courses r !! get_code c))
      then (log ++ [(Warn, "multiple courses with same code: {}")])%list
      else log),
     Ok tt).
Proof.
  unfold add_course_with, call_get_code, bind, lift, get, when, log_warn, modify, ret.
  simpl. destruct (bool_decide (is_Some (courses r !! get_code c))); reflexivity.
Qed.

Lemma add_course_with_last_write_wins (c1 c2 : Course) (r : ScraperResult)
  (log : list log_entry) :
  get_code c1 = get_code c2 ->
  let st1 := fst (add_course_with (Some get_code) (PCourse c1) (r, log)) in
  let st2 := fst (add_course_with (Some get_code) (PCourse c2) st1) in
  courses (fst st2) !! get_code c1 = Some c2 /\
  snd st2 = (snd st1 ++ [(Warn, "multiple courses with same code: {}")])%list.
Proof.
  intros Heq. rewrite add_course_with_get_code. cbn [fst snd].
  rewrite add_course_with_get_code. cbn [fst snd assign_courses courses].
  rewrite <- Heq, !lookup_insert_eq.
  rewrite bool_decide_eq_true_2 by (eexists; reflexivity).
  split; reflexivity.
Qed.

End AddCourseFacts.

(** [add_course] on an instance of the module's [Course] never gets
    past [course.get_code()]. *)
Lemma add_course_always_raises (c : Course) (st : logged ScraperResult) :
  add_course (PCourse c) st = (st, Raise (PyExc AttributeError)).
Proof. reflexivity. Qed.

(** C6.  The code at the failing input.  Adding a [Course] to an empty
    [ScraperResult] raises [AttributeError]; the mapping stays empty and
    nothing is logged, for one call and for the constructor given two
    courses. *)
Theorem add_course_raises_AttributeError :
  add_course (PCourse {| course_oid := 1 |}) (empty_result, [])
    = ((empty_result, []), Raise (PyExc AttributeError)) /\
  courses (fst (fst (add_course (PCourse {| course_oid := 1 |}) (empty_result, [])))) = ∅ /\
  ScraperResult_init PNone
      (Some [PCourse {| course_oid := 1 |}; PCourse {| course_oid := 2 |}]) []
    = ([], Raise (PyExc AttributeError)).
Proof. repeat split; reflexivity. Qed.

(** ** The refinement orchestrator *)

Section OrchestratorFacts.

Import Orchestrator.

Context {Course : Type}.

Implicit Types (st : ScraperResult Course * gset string).
Implicit Types (refine : Course -> refine_result Course).

(** Merging leaves only listed codes pending. *)
Lemma merging_pending_listed (cp : option (Checkpoint Course)) (new : ScraperResult Course) :
  snd (merging cp new) ⊆ dom (courses (fst (merging cp new))).
Proof.
  destruct cp as [cp|]; simpl; [|reflexivity].
  assert (Hdom : dom (map_imap (fun code c => Some (merge_course cp code c)) (courses new))
                 = dom (courses new)).
  { apply dom_imap_L. intros code. rewrite elem_of_dom. split.
    - intros [c Hc]. exists c. split; [exact Hc | eexists; reflexivity].
    - intros (c & Hc & _). exists c. exact Hc. }
  rewrite Hdom. set_solver.
Qed.

(** A task whose [refine] call succeeds takes its code off the pending
    set and keeps the set of listed codes. *)
Lemma refine_task_success refine (code : string) st :
  (forall c, refine c <> RefineError) ->
  code ∈ dom (courses (fst st)) ->
  snd (refine_task refine code st) = snd st ∖ {[code]} /\
  dom (courses (fst (refine_task refine code st))) = dom (courses (fst st)).
Proof.
  intros Hok Hin. unfold refine_task.
  apply elem_of_dom in Hin as [c Hc]. rewrite Hc.
  destruct (refine c) as [c'| |] eqn:Hr; simpl.
  - split; [reflexivity|]. rewrite dom_insert_L.
    assert (code ∈ dom (courses (fst st))) by (apply elem_of_dom; eauto).
    set_solver.
  - split; reflexivity.
  - destruct (Hok c Hr).
Qed.

Lemma refine_tasks_success refine (codes : list string) st :
  (forall c, refine c <> RefineError) ->
  (forall code, code ∈ codes -> code ∈ dom (courses (fst st))) ->
  snd (foldl (fun acc code => refine_task refine code acc) st codes)
    = snd st ∖ list_to_set codes.
Proof.
  intros Hok. revert st.
  induction codes as [|code codes IH]; intros st Hin; simpl.
  - set_solver.
  - destruct (refine_task_success refine code st Hok) as [Hp Hd].
    { apply Hin. left. }
    rewrite IH.
    + rewrite Hp. set_solver.
    + intros code' Hc'. rewrite Hd. apply Hin. right. exact Hc'.
Qed.

Lemma ascending_Permutation (codes : gset string) :
  ascending codes ≡ₚ elements codes.
Proof. apply merge_sort_Permutation. Qed.

Lemma ascending_length (codes : gset string) :
  length (ascending codes) = size codes.
Proof. rewrite ascending_Permutation. reflexivity. Qed.

Lemma ascending_elem_of (codes : gset string) (code : string) :
  code ∈ ascending codes <-> code ∈ codes.
Proof. rewrite ascending_Permutation. apply elem_of_elements. Qed.

(** When [refine] never fails and the deadline leaves room for every
    pending code, Refining empties the pending set. *)
Lemma refining_reaches_fixpoint refine (dispatched : nat) st :
  (forall c, refine c <> RefineError) ->
  snd st ⊆ dom (courses (fst st)) ->
  (size (snd st) <= dispatched)%nat ->
  snd (refining refine dispatched st) = ∅.
Proof.
  intros Hok Hsub Hd. unfold refining.
  rewrite take_ge by (rewrite ascending_length; exact Hd).
  rewrite refine_tasks_success; [|exact Hok|].
  - apply set_eq. intros code.
    rewrite elem_of_difference, elem_of_list_to_set, ascending_elem_of.
    set_solver.
  - intros code Hc. apply ascending_elem_of in Hc. set_solver.
Qed.

(** Finalizing on an empty pending set: [Completed], the store as it
    was. *)
Lemma finalizing_empty (id : string) st (store : Store Course) :
  snd st = ∅ ->
  finalizing id st store = (store, Finished Completed (fst st) ∅).
Proof.
  intros He. unfold finalizing. rewrite He.
  rewrite decide_True by reflexivity. reflexivity.
Qed.

(** Finalizing on a non-empty pending set: [Exhausted], one more save. *)
Lemma finalizing_pending (id : string) st (store : Store Course) :
  snd st <> ∅ ->
  finalizing id st store
    = (save id {| snapshot := fst st; pending := snd st |} store,
       Finished Exhausted (fst st) (snd st)).
Proof.
  intros Hne. unfold finalizing. rewrite decide_False by exact Hne. reflexivity.
Qed.

End OrchestratorFacts.

(** C7, as stated, fails when the deadline cuts the second invocation
    short.  Three courses are listed, [refine] never fails, and each
    invocation's deadline leaves room for one task.  The first
    invocation refines "CS 5" and checkpoints the other two; the second
    refines "CS 60", ends [Exhausted] with "CS 70" still pending, and
    writes a second checkpoint. *)
Lemma second_invocation_exhausted_at_deadline :
  Orchestrator.invoke "hmc" (Some three_courses) always_unchanged 1 empty_store
    = (Orchestrator.save "hmc"
         {| Orchestrator.snapshot := three_courses;
            Orchestrator.pending := {["CS 60"; "CS 70"]} |}
         empty_store,
       Orchestrator.Finished Orchestrator.Exhausted three_courses {["CS 60"; "CS 70"]}) /\
  Orchestrator.invoke "hmc" (Some three_courses) always_unchanged 1
      (fst (Orchestrator.invoke "hmc" (Some three_courses) always_unchanged 1 empty_store))
    = (Orchestrator.save "hmc"
         {| Orchestrator.snapshot := three_courses;
            Orchestrator.pending := {["CS 70"]} |}
         (fst (Orchestrator.invoke "hmc" (Some three_courses) always_unchanged 1 empty_store)),
       Orchestrator.Finished Orchestrator.Exhausted three_courses {["CS 70"]}) /\
  Orchestrator.saves
    (fst (Orchestrator.invoke "hmc" (Some three_courses) always_unchanged 1
            (fst (Orchestrator.invoke "hmc" (Some three_courses) always_unchanged 1
                    empty_store))))
    = 2%nat.
Proof. repeat split; vm_compute; reflexivity. Qed.

(** C7, amended.  Run the orchestrator twice in a row with a [refine]
    that never fails.  If the second invocation's listing succeeds and
    its deadline leaves room to dispatch every code pending after the
    merge, the second invocation ends [Completed] with an empty pending
    set, and the checkpoint store is exactly what the first invocation
    left: nothing is written. *)
Theorem second_invocation_completes {Course : Type} (id : string)
  (listing1 : option (Orchestrator.ScraperResult Course))
  (new : Orchestrator.ScraperResult Course)
  (refine : Course -> Orchestrator.refine_result Course)
  (dispatched1 dispatched2 : nat) (store0 : Orchestrator.Store Course) :
  (forall c, refine c <> Orchestrator.RefineError) ->
  (size (snd (Orchestrator.merging
                (Orchestrator.load id
                   (fst (Orchestrator.invoke id listing1 refine dispatched1 store0)))
                new)) <= dispatched2)%nat ->
  exists result,
    Orchestrator.invoke id (Some new) refine dispatched2
        (fst (Orchestrator.invoke id listing1 refine dispatched1 store0))
      = (fst (Orchestrator.invoke id listing1 refine dispatched1 store0),
         Orchestrator.Finished Orchestrator.Completed result ∅).
Proof.
  intros Hok Hd.
  set (store1 := fst (Orchestrator.invoke id listing1 refine dispatched1 store0)) in *.
  unfold Orchestrator.invoke at 1.
  eexists. apply finalizing_empty.
  apply refining_reaches_fixpoint; [exact Hok | apply merging_pending_listed | exact Hd].
Qed.

Lemma second_invocation_completes_witness :
  exists result,
    Orchestrator.invoke "hmc" (Some two_courses) always_unchanged 1
        (fst (Orchestrator.invoke "hmc" (Some two_courses) always_unchanged 1 empty_store))
      = (fst (Orchestrator.invoke "hmc" (Some two_courses) always_unchanged 1 empty_store),
         Orchestrator.Finished Orchestrator.Completed result ∅).
Proof.
  apply (second_invocation_completes "hmc" (Some two_courses) two_courses
           always_unchanged 1 1 empty_store).
  - intros c. discriminate.
  - vm_compute. lia.
Defined.

(** * Further properties of the library *)

(** ** Subterm *)

(** X1.  A [Subterm] that was constructed has at least one slot and at
    least one slot that is true. *)
Theorem Subterm_init_invariant (args : list pyval) (s : Subterm) :
  Subterm_init args = Ok s ->
  subterms s <> [] /\ true ∈ subterms s.
Proof.
  rewrite Subterm_init_cases. intros H.
  destruct args as [|a args]; [discriminate|].
  destruct (any (a :: args)) eqn:Hany; [|discriminate].
  apply any_true_Exists in Hany. apply Exists_exists in Hany as (x & Hx & Ht).
  apply (list_elem_of_fmap_2 truthy) in Hx. rewrite Ht in Hx.
  injection H as <-. split; [discriminate | exact Hx].
Qed.

Lemma Subterm_init_invariant_witness :
  [true; false; true] <> [] /\ true ∈ [true; false; true].
Proof.
  apply (Subterm_init_invariant [PStr "a"; PInt 0; PList [PNone]]
           {| subterms := [true; false; true] |}).
  reflexivity.
Defined.

Lemma Subterm_init_Ok_subterms (args : list pyval) (s : Subterm) :
  Subterm_init args = Ok s -> subterms s = map truthy args.
Proof.
  rewrite Subterm_init_cases. intros H.
  destruct args as [|a args]; [discriminate|].
  destruct (any (a :: args)); [|discriminate].
  injection H as <-. reflexivity.
Qed.

Lemma map_truthy_PBool (bs : list bool) : map truthy (map PBool bs) = bs.
Proof. induction bs as [|b bs IH]; simpl; [reflexivity | now rewrite IH]. Qed.

Lemma any_truthy_PBool (args : list pyval) :
  any (map (fun a => PBool (truthy a)) args) = any args.
Proof.
  unfold any. induction args as [|a args IH]; simpl; [reflexivity | now rewrite IH].
Qed.

(** X2.  The constructor looks at the truthiness of its arguments and
    at nothing else: replacing every argument by its boolean coercion
    gives the same outcome, and rebuilding a constructed [Subterm] from
    its stored slots gives it back. *)
Theorem Subterm_init_truthiness_only (args : list pyval) :
  Subterm_init (map (fun a => PBool (truthy a)) args) = Subterm_init args /\
  forall s, Subterm_init args = Ok s -> Subterm_init (map PBool (subterms s)) = Ok s.
Proof.
  assert (Hnorm : Subterm_init (map (fun a => PBool (truthy a)) args) = Subterm_init args).
  { rewrite !Subterm_init_cases. destruct args as [|a args]; [reflexivity|].
    change (map (fun a0 => PBool (truthy a0)) (a :: args))
      with (PBool (truthy a) :: map (fun a0 => PBool (truthy a0)) args).
    change (PBool (truthy a) :: map (fun a0 => PBool (truthy a0)) args)
      with (map (fun a0 => PBool (truthy a0)) (a :: args)).
    rewrite any_truthy_PBool.
    rewrite <- (map_map truthy PBool), map_truthy_PBool. reflexivity. }
  split; [exact Hnorm|].
  intros s Hs. rewrite (Subterm_init_Ok_subterms args s Hs), map_map, Hnorm.
  exact Hs.
Qed.

(** ** Date and Time *)

(** X3.  [Date] and [Time] accept the same strings: on one string both
    constructors return, or both raise [MaintainerError], or both
    propagate the same exception of the parser. *)
Theorem Date_init_Time_init_agree (parse : string -> parse_outcome) (s : string) :
  ((exists d, Date_init parse s = Ok d) <-> (exists t, Time_init parse s = Ok t)) /\
  ((exists msg, Date_init parse s = Raise (MaintainerError msg)) <->
   (exists msg, Time_init parse s = Raise (MaintainerError msg))) /\
  (forall e, Date_init parse s = Raise (PyExc e) <-> Time_init parse s = Raise (PyExc e)).
Proof.
  unfold Date_init, Time_init, parse_or_ValueError.
  destruct (parse s) as [dt| |e]; [| |destruct e]; simpl;
    repeat split; intros;
    repeat match goal with H : exists _, _ |- _ => destruct H end;
    try discriminate; eauto;
    match goal with H : Raise _ = Raise _ |- _ => injection H as <- end;
    reflexivity.
Qed.

(** ** Meeting *)

Lemma bind_Ok_inv {S A B} (m : M S A) (k : A -> M S B) (s s' : S) (b : B) :
  bind m k s = (s', Ok b) ->
  exists a s1, m s = (s1, Ok a) /\ k a s1 = (s', Ok b).
Proof.
  unfold bind. destruct (m s) as [s1 [a|e]]; [eauto | discriminate].
Qed.

Lemma set_start_date_cases (d : Date) (m : Meeting) :
  set_start_date (PDate d) m =
    (assign_start_date (Some d) m,
     match end_date m with
     | Some _ => Raise (PyExc TypeError)
     | None => Ok tt
     end).
Proof.
  unfold set_start_date, bind, modify, _check_dates, bind, get, lift. simpl.
  destruct (end_date m); reflexivity.
Qed.

Lemma set_end_date_cases (d : Date) (m : Meeting) :
  set_end_date (PDate d) m =
    (assign_end_date (Some d) m,
     match start_date m with
     | Some _ => Raise (PyExc TypeError)
     | None => Ok tt
     end).
Proof.
  unfold set_end_date, bind, modify, _check_dates, bind, get, lift. simpl.
  destruct (start_date m); reflexivity.
Qed.

Lemma set_start_time_cases (t : Time) (m : Meeting) :
  set_start_time (PTime t) m =
    (assign_start_time (Some t) m,
     match end_time m with
     | Some _ => Raise (PyExc TypeError)
     | None => Ok tt
     end).
Proof.
  unfold set_start_time, bind, modify, _check_times, bind, get, lift. simpl.
  destruct (end_time m); reflexivity.
Qed.

Lemma set_end_time_cases (t : Time) (m : Meeting) :
  set_end_time (PTime t) m =
    (assign_end_time (Some t) m,
     match start_time m with
     | Some _ => Raise (PyExc TypeError)
     | None => Ok tt
     end).
Proof.
  unfold set_end_time, bind, modify, _check_times, bind, get, lift. simpl.
  destruct (start_time m); reflexivity.
Qed.

Lemma set_location_raises (v : pyval) (m : Meeting) :
  set_location v m = (m, Raise (PyExc NameError)).
Proof. reflexivity. Qed.

Lemma set_term_raises (v : pyval) (st : logged ScraperResult) :
  set_term v st = (st, Raise (PyExc NameError)).
Proof. reflexivity. Qed.



(** X5.  Every setter call, returning or raising, leaves all fields
    but its own as they were. *)
Theorem setter_frame (f : setter) (v : pyval) (m : Meeting) :
  (f <> SetStartDate ->
     start_date (fst (call_setter f v m)) = start_date m) /\
  (f <> SetEndDate ->
     end_date (fst (call_setter f v m)) = end_date m) /\
  (f <> SetWeekdays ->
     weekdays (fst (call_setter f v m)) = weekdays m) /\
  (f <> SetStartTime ->
     start_time (fst (call_setter f v m)) = start_time m) /\
  (f <> SetEndTime ->
     end_time (fst (call_setter f v m)) = end_time m) /\
  (f <> SetSubterm ->
     subterm (fst (call_setter f v m)) = subterm m) /\
  location (fst (call_setter f v m)) = location m.
Proof.
  destruct f; cbn [call_setter];
    try rewrite set_location_raises;
    destruct v;
    try rewrite set_start_date_cases; try rewrite set_end_date_cases;
    try rewrite set_start_time_cases; try rewrite set_end_time_cases;
    try rewrite set_weekdays_inverted; try case_bool_decide;
    repeat split; intros; try congruence; reflexivity.
Qed.

(** X6.  [set_dates] on two dates and [set_times] on two times never
    return, whatever the receiver and whatever the order of the two
    values: the comparison raises [TypeError], and the start value has
    been stored by then. *)
Theorem set_dates_set_times_always_raise (m : Meeting) :
  (forall s e,
     snd (set_dates (PDate s) (PDate e) m) = Raise (PyExc TypeError) /\
     start_date (fst (set_dates (PDate s) (PDate e) m)) = Some s) /\
  (forall s e,
     snd (set_times (PTime s) (PTime e) m) = Raise (PyExc TypeError) /\
     start_time (fst (set_times (PTime s) (PTime e) m)) = Some s).
Proof.
  split; intros s e.
  - unfold set_dates, bind. rewrite set_start_date_cases.
    destruct (end_date m); [split; reflexivity|].
    rewrite set_end_date_cases. split; reflexivity.
  - unfold set_times, bind. rewrite set_start_time_cases.
    destruct (end_time m); [split; reflexivity|].
    rewrite set_end_time_cases. split; reflexivity.
Qed.

(** X7.  [set_location] raises [NameError] for every value and every
    receiver, and so does [ScraperResult.set_term]: no meeting gets a
    location and no result gets a term through them, and a constructor
    call that passes a location does not return. *)
Theorem unbound_class_setters_never_store :
  (forall v m, set_location v m = (m, Raise (PyExc NameError))) /\
  (forall v st, set_term v st = (st, Raise (PyExc NameError))) /\
  (forall sd ed wd st et sb loc,
     is_None loc = false ->
     exists e, Meeting_init sd ed wd st et sb loc = Raise e).
Proof.
  split; [exact set_location_raises|]. split; [exact set_term_raises|].
  intros sd ed wd st et sb loc Hloc. unfold Meeting_init.
  match goal with |- context [match ?body blank_meeting with _ => _ end] =>
    destruct (body blank_meeting) as [m' [[]|e]] eqn:Hbody end; [|eauto].
  exfalso.
  repeat (apply bind_Ok_inv in Hbody as (? & ? & _ & Hbody)).
  rewrite Hloc in Hbody. simpl in Hbody. rewrite set_location_raises in Hbody.
  discriminate.
Qed.

Lemma blank_meeting_half_built : half_built blank_meeting.
Proof. repeat split; auto. intros w H. discriminate. Qed.

Lemma call_setter_half_built (f : setter) (v : pyval) (m m' : Meeting) :
  half_built m -> call_setter f v m = (m', Ok tt) -> half_built m'.
Proof.
  intros (Hd & Ht & Hw & Hl) Hcall.
  destruct f; cbn [call_setter] in Hcall;
    try (rewrite set_location_raises in Hcall; discriminate);
    destruct v; try discriminate.
  - rewrite set_start_date_cases in Hcall.
    destruct (end_date m) eqn:He; [discriminate|]. injection Hcall as <-.
    repeat split; auto.
  - rewrite set_end_date_cases in Hcall.
    destruct (start_date m) eqn:Hs; [discriminate|]. injection Hcall as <-.
    repeat split; auto.
  - rewrite set_weekdays_inverted in Hcall. case_bool_decide; [|discriminate].
    injection Hcall as <-. repeat split; auto.
    intros w' [= <-]. assumption.
  - rewrite set_start_time_cases in Hcall.
    destruct (end_time m) eqn:He; [discriminate|]. injection Hcall as <-.
    repeat split; auto.
  - rewrite set_end_time_cases in Hcall.
    destruct (start_time m) eqn:Hs; [discriminate|]. injection Hcall as <-.
    repeat split; auto.
  - injection Hcall as <-. repeat split; auto.
Qed.

Lemma when_setter_half_built (f : setter) (v : pyval) (m m' : Meeting) (u : unit) :
  half_built m ->
  when (negb (is_None v)) (call_setter f v) m = (m', Ok u) ->
  half_built m'.
Proof.
  intros Hm Hcall. destruct (negb (is_None v)); simpl in Hcall.
  - destruct u. eapply call_setter_half_built; eauto.
  - injection Hcall as <- _. exact Hm.
Qed.

(** X8.  Whenever a sequence of setter calls on a meeting that has at
    most one date, at most one time, no non-empty [Weekdays] and no
    location returns from every call, the meeting still has at most one
    date, at most one time, no non-empty [Weekdays] and no location. *)
Theorem setters_keep_half_built (calls : list (setter * pyval)) (m m' : Meeting) :
  half_built m ->
  for_each (fun c => call_setter (fst c) (snd c)) calls m = (m', Ok tt) ->
  half_built m'.
Proof.
  revert m. induction calls as [|[f v] calls IH]; intros m Hm Hrun.
  - injection Hrun as <-. exact Hm.
  - cbn [for_each fst snd] in Hrun.
    apply bind_Ok_inv in Hrun as ([] & m1 & Hcall & Hrest).
    apply (IH m1); [|exact Hrest].
    eapply call_setter_half_built; eauto.
Qed.

Lemma setters_keep_half_built_witness :
  half_built (assign_subterm (Some {| subterms := [true] |})
                (assign_start_date (Some jan_1) blank_meeting)).
Proof.
  apply (setters_keep_half_built
           [(SetStartDate, PDate jan_1); (SetSubterm, PSubterm {| subterms := [true] |})]
           blank_meeting).
  - exact blank_meeting_half_built.
  - reflexivity.
Defined.

(** X9.  Every meeting the constructor returns has at most one of its
    two dates set, at most one of its two times set, an empty
    [Weekdays] if it has one, and no location. *)
Theorem Meeting_init_half_built
  (sd ed wd st et sb loc : pyval) (m : Meeting) :
  Meeting_init sd ed wd st et sb loc = Ok m -> half_built m.
Proof.
  unfold Meeting_init.
  match goal with |- context [match ?body blank_meeting with _ => _ end] =>
    destruct (body blank_meeting) as [m' [[]|e]] eqn:Hbody end; [|discriminate].
  intros [= <-].
  apply bind_Ok_inv in Hbody as (u1 & m1 & H1 & Hbody).
  apply bind_Ok_inv in Hbody as (u2 & m2 & H2 & Hbody).
  apply bind_Ok_inv in Hbody as (u3 & m3 & H3 & Hbody).
  apply bind_Ok_inv in Hbody as (u4 & m4 & H4 & Hbody).
  apply bind_Ok_inv in Hbody as (u5 & m5 & H5 & Hbody).
  apply bind_Ok_inv in Hbody as (u6 & m6 & H6 & H7).
  apply (when_setter_half_built SetLocation loc m6 m' tt); [|exact H7].
  apply (when_setter_half_built SetSubterm sb m5 m6 u6); [|exact H6].
  apply (when_setter_half_built SetEndTime et m4 m5 u5); [|exact H5].
  apply (when_setter_half_built SetStartTime st m3 m4 u4); [|exact H4].
  apply (when_setter_half_built SetWeekdays wd m2 m3 u3); [|exact H3].
  apply (when_setter_half_built SetEndDate ed m1 m2 u2); [|exact H2].
  apply (when_setter_half_built SetStartDate sd blank_meeting m1 u1); [|exact H1].
  exact blank_meeting_half_built.
Qed.

Lemma Meeting_init_half_built_witness :
  half_built (assign_end_time (Some ten_am)
                (assign_weekdays (Some no_days)
                   (assign_end_date (Some may_1) blank_meeting))).
Proof.
  apply (Meeting_init_half_built PNone (PDate may_1) (PWeekdays no_days) PNone
           (PTime ten_am) PNone PNone).
  reflexivity.
Defined.

(** ** Weekdays *)






(** ** ScraperResult *)


Section AddCourseSequences.

Variable get_code : Course -> string.

Lemma foldl_insert_lookup (cs : list Course) (m : gmap string Course) (code : string) :
  foldl (fun acc c => <[get_code c := c]> acc) m cs !! code =
    match last (filter (fun c => get_code c = code) cs) with
    | Some c => Some c
    | None => m !! code
    end.
Proof.
  induction cs as [|c cs IH] using rev_ind; [reflexivity|].
  rewrite foldl_app, filter_app. cbn [foldl].
  destruct (decide (get_code c = code)) as [Heq | Hne].
  - rewrite filter_cons_True by exact Heq. cbn [filter list_filter].
    rewrite last_snoc, <- Heq. apply lookup_insert_eq.
  - rewrite filter_cons_False by exact Hne. cbn [filter list_filter].
    rewrite app_nil_r, lookup_insert_ne by exact Hne. exact IH.
Qed.

Lemma add_course_with_run (cs : list Course) (r : ScraperResult) (log : list log_entry) :
  exists k : nat,
    for_each (add_course_with (Some get_code)) (map PCourse cs) (r, log)
      = ((assign_courses (foldl (fun acc c => <[get_code c := c]> acc) (courses r) cs) r,
          (log ++ replicate k collision_warning)%list),
         Ok tt) /\
    (k + size (foldl (fun acc c => <[get_code c := c]> acc) (courses r) cs)
       = length cs + size (courses r))%nat.
Proof.
  revert r log. induction cs as [|c cs IH]; intros r log.
  - exists 0%nat. cbn. rewrite app_nil_r. destruct r. split; reflexivity.
  - cbn [map for_each foldl]. unfold bind at 1.
    rewrite add_course_with_get_code. cbv beta iota.
    set (r1 := assign_courses (<[get_code c := c]> (courses r)) r).
    destruct (IH r1
                (if bool_decide (is_Some (courses r !! get_code c))
                 then (log ++ [collision_warning])%list else log))
      as (k & Hrun & Hk).
    unfold collision_warning in *.
    cbn [r1 assign_courses courses term] in Hrun, Hk.
    case_bool_decide as Hin.
    + exists (S k). split.
      * etransitivity; [exact Hrun|]. rewrite <- app_assoc. reflexivity.
      * rewrite map_size_insert_Some in Hk by exact Hin. simpl. lia.
    + exists k. split; [exact Hrun|].
      assert (Hnone : courses r !! get_code c = None).
      { destruct (courses r !! get_code c) eqn:E; [|reflexivity].
        destruct Hin. eauto. }
      rewrite map_size_insert_None in Hk by exact Hnone. simpl. lia.
Qed.

End AddCourseSequences.

(** X13.  For a [Course] class that provides [get_code], any sequence
    of [add_course] calls returns, leaves the term alone, and ends with
    a mapping in which every code holds the last course added under it
    and every code not added holds what it held before.  The log grows
    by collision warnings only, one for each call whose code was
    already a key: their number and the size of the mapping add up to
    the number of calls and the size of the mapping before. *)
Theorem add_course_sequence_last_write_wins (get_code : Course -> string)
  (cs : list Course) (r : ScraperResult) (log : list log_entry) :
  exists (r' : ScraperResult) (k : nat),
    for_each (add_course_with (Some get_code)) (map PCourse cs) (r, log)
      = ((r', (log ++ replicate k collision_warning)%list), Ok tt) /\
    term r' = term r /\
    (forall code,
       courses r' !! code =
         match last (filter (fun c => get_code c = code) cs) with
         | Some c => Some c
         | None => courses r !! code
         end) /\
    (k + size (courses r') = length cs + size (courses r))%nat.
Proof.
  destruct (add_course_with_run get_code cs r log) as (k & Hrun & Hk).
  eexists _, k. split; [exact Hrun|]. split; [reflexivity|].
  split; [|exact Hk].
  intros code. apply foldl_insert_lookup.
Qed.

(** ** The [__str__] methods *)

Lemma string_of_uint_digits (d : Decimal.uint) :
  all_digits (NilEmpty.string_of_uint d) = true.
Proof. induction d; simpl; auto. Qed.

Lemma format_int_digits (n : Z) : 0 <= n -> all_digits (format_int n) = true.
Proof.
  intros Hn. unfold format_int. destruct n as [|p|p]; [reflexivity| |lia].
  simpl. unfold NilZero.string_of_uint.
  destruct (Pos.to_uint p) eqn:E; try reflexivity;
    rewrite <- E; apply string_of_uint_digits.
Qed.

Lemma format_int_inj (a b : Z) : format_int a = format_int b -> a = b.
Proof.
  unfold format_int. intros H.
  assert (Hisi : forall n,
             NilZero.int_of_string (NilZero.string_of_int (Z.to_int n))
             = Some (Z.to_int n)).
  { intros n. apply NilZero.isi; destruct n; simpl; try discriminate;
      intros [= E]; exact (Unsigned.to_uint_nonnil _ E). }
  apply DecimalZ.to_int_inj.
  pose proof (Hisi a) as Ha. pose proof (Hisi b) as Hb.
  rewrite H in Ha. congruence.
Qed.

(** Two numerals followed by the same non-digit character split a
    string in one way only. *)
Lemma digits_split (a a' : string) (c : ascii) (r r' : string) :
  all_digits a = true -> all_digits a' = true -> is_digit c = false ->
  a ++ String c r = a' ++ String c r' -> a = a' /\ r = r'.
Proof.
  revert a'. induction a as [|x a IH]; intros [|x' a'] Ha Ha' Hc H; simpl in *.
  - injection H as ->. auto.
  - injection H as -> _. apply andb_true_iff in Ha' as [Hx _]. congruence.
  - injection H as -> _. apply andb_true_iff in Ha as [Hx _]. congruence.
  - injection H as -> H.
    apply andb_true_iff in Ha as [_ Ha]. apply andb_true_iff in Ha' as [_ Ha'].
    destruct (IH a' Ha Ha' Hc H) as [-> ->]. auto.
Qed.

(** X14.  [Date.__str__] tells dates apart: two dates with
    non-negative fields that print alike are the same date. *)
Theorem Date_str_injective (d1 d2 : Date) :
  valid_Date d1 -> valid_Date d2 -> Date_str d1 = Date_str d2 -> d1 = d2.
Proof.
  intros (Hy1 & Hm1 & Hd1) (Hy2 & Hm2 & Hd2). unfold Date_str.
  change ("-" ++ ?x) with (String "-" x). intros H.
  apply digits_split in H as [Hy H];
    [|apply format_int_digits; assumption..|reflexivity].
  apply digits_split in H as [Hm Hd];
    [|apply format_int_digits; assumption..|reflexivity].
  apply format_int_inj in Hy, Hm, Hd.
  destruct d1, d2; simpl in *; congruence.
Qed.

Lemma Date_str_injective_witness : jan_1 = jan_1.
Proof.
  apply (Date_str_injective jan_1 jan_1).
  - unfold valid_Date; simpl; lia.
  - unfold valid_Date; simpl; lia.
  - reflexivity.
Defined.

Lemma hour12_bounds (h : Z) : 1 <= (h - 1) mod 12 + 1 <= 12.
Proof. pose proof (Z.mod_pos_bound (h - 1) 12). lia. Qed.

(** X15.  [Time.__str__] prints a twelve-hour clock: for every hour
    value the hour shown lies between 1 and 12 and differs from the
    stored hour by a multiple of 12; the minute is printed as a plain
    numeral, and the marker is AM exactly when the stored hour is below
    12. *)
Theorem Time_str_twelve_hour_clock (t : Time) :
  exists h12 : Z,
    1 <= h12 <= 12 /\
    (h12 - hour t) mod 12 = 0 /\
    Time_str t = format_int h12 ++ ":" ++ format_int (minute t) ++ " "
                   ++ (if hour t <? 12 then "AM" else "PM").
Proof.
  exists ((hour t - 1) mod 12 + 1). split; [apply hour12_bounds|].
  split; [|reflexivity].
  replace ((hour t - 1) mod 12 + 1 - hour t)
    with ((hour t - 1) mod 12 - (hour t - 1)) by lia.
  rewrite Zminus_mod, Z.mod_mod, Z.sub_diag by lia. reflexivity.
Qed.

(** X16.  [Time.__str__] tells times of day apart: two times with an
    hour from 0 to 23 and a non-negative minute that print alike are
    the same time. *)
Theorem Time_str_injective (t1 t2 : Time) :
  valid_Time t1 -> valid_Time t2 -> Time_str t1 = Time_str t2 -> t1 = t2.
Proof.
  intros (Hh1 & Hm1) (Hh2 & Hm2). unfold Time_str. cbv zeta.
  change (":" ++ ?x) with (String ":" x).
  change (" " ++ ?x) with (String " " x). intros H.
  apply digits_split in H as [Hh H];
    [|apply format_int_digits; pose proof (hour12_bounds (hour t1));
      pose proof (hour12_bounds (hour t2)); lia..|reflexivity].
  apply digits_split in H as [Hm Hap];
    [|apply format_int_digits; assumption..|reflexivity].
  apply format_int_inj in Hh, Hm.
  assert (Hhour : hour t1 = hour t2).
  { pose proof (Z.div_mod (hour t1 - 1) 12 ltac:(lia)) as E1.
    pose proof (Z.div_mod (hour t2 - 1) 12 ltac:(lia)) as E2.
    pose proof (Z.mod_pos_bound (hour t1 - 1) 12 ltac:(lia)).
    pose proof (Z.mod_pos_bound (hour t2 - 1) 12 ltac:(lia)).
    destruct (Z.ltb_spec (hour t1) 12), (Z.ltb_spec (hour t2) 12);
      try discriminate; lia. }
  destruct t1, t2; simpl in *; congruence.
Qed.

Lemma Time_str_injective_witness : nine_am = nine_am.
Proof.
  apply (Time_str_injective nine_am nine_am).
  - unfold valid_Time; simpl; lia.
  - unfold valid_Time; simpl; lia.
  - reflexivity.
Defined.

(** *** [Weekdays.__str__] *)

Lemma str_find_in (needle haystack : string) :
  is_Some (str_find needle haystack) <-> str_in needle haystack = true.
Proof.
  induction haystack as [|c rest IH]; cbn [str_find str_in].
  - destruct (String.prefix needle ""); cbn [orb].
    + split; [reflexivity | eauto].
    + split; [intros [? ?]; discriminate | discriminate].
  - destruct (String.prefix needle (String c rest)); cbn [orb].
    + split; [reflexivity | eauto].
    + rewrite <- IH. destruct (str_find needle rest); cbn [option_map].
      * split; eauto.
      * split; intros [? ?]; discriminate.
Qed.

Lemma keyed_all_found (l : list string) :
  Forall (fun d => is_Some (str_find d CHARS)) l ->
  keyed (str_index CHARS) l = Ok (map keyed_day l).
Proof.
  induction 1 as [|d l [i Hi] _ IH]; [reflexivity|].
  cbn [keyed map]. unfold str_index at 1, keyed_day at 1, week_index.
  rewrite Hi, IH. reflexivity.
Qed.

Lemma keyed_one_missing (l : list string) :
  Exists (fun d => str_find d CHARS = None) l ->
  keyed (str_index CHARS) l = Raise (PyExc ValueError).
Proof.
  induction 1 as [d l Hd | d l _ IH]; cbn [keyed]; unfold str_index at 1.
  - rewrite Hd. reflexivity.
  - destruct (str_find d CHARS); [|reflexivity]. rewrite IH. reflexivity.
Qed.

#[local] Instance key_le_transitive : Transitive key_le.
Proof. unfold key_le. intros a b c ? ?. lia. Qed.

Lemma insert_keyed_Permutation (kx : nat * string) (l : list (nat * string)) :
  insert_keyed kx l ≡ₚ kx :: l.
Proof.
  induction l as [|ky l IH]; [reflexivity|]. cbn [insert_keyed].
  destruct (fst kx <=? fst ky)%nat; [reflexivity|].
  rewrite IH. apply Permutation_swap.
Qed.

Lemma sort_keyed_Permutation (l : list (nat * string)) : sort_keyed l ≡ₚ l.
Proof.
  induction l as [|kx l IH]; [reflexivity|]. cbn [sort_keyed].
  rewrite insert_keyed_Permutation, IH. reflexivity.
Qed.

Lemma insert_keyed_StronglySorted (kx : nat * string) (l : list (nat * string)) :
  StronglySorted key_le l -> StronglySorted key_le (insert_keyed kx l).
Proof.
  induction 1 as [|ky l Hl IH Hky]; cbn [insert_keyed].
  - repeat constructor.
  - destruct (Nat.leb_spec (fst kx) (fst ky)) as [Hle | Hgt].
    + constructor; [constructor; assumption|].
      constructor; [exact Hle|].
      eapply Forall_impl; [exact Hky|]. unfold key_le. intros; simpl in *; lia.
    + constructor; [exact IH|].
      rewrite insert_keyed_Permutation. constructor; [|exact Hky].
      unfold key_le. lia.
Qed.

Lemma sort_keyed_StronglySorted (l : list (nat * string)) :
  StronglySorted key_le (sort_keyed l).
Proof.
  induction l as [|kx l IH]; [constructor|].
  cbn [sort_keyed]. apply insert_keyed_StronglySorted, IH.
Qed.

Lemma StronglySorted_filter {A} (R : relation A) (P : A -> Prop)
  `{forall x, Decision (P x)} (l : list A) :
  StronglySorted R l -> StronglySorted R (filter P l).
Proof.
  induction 1 as [|x l Hl IH Hx]; [constructor|].
  rewrite filter_cons. case_decide; [|exact IH].
  constructor; [exact IH|].
  apply Forall_forall. intros y Hy. apply list_elem_of_filter in Hy as [_ Hy].
  rewrite Forall_forall in Hx. apply Hx, Hy.
Qed.

Lemma week_letters_found (d : string) :
  d ∈ week_letters -> is_Some (str_find d CHARS).
Proof.
  unfold week_letters. rewrite !elem_of_cons, elem_of_nil.
  intros [-> | [-> | [-> | [-> | [-> | [-> | [-> | []]]]]]]]; vm_compute; eauto.
Qed.

Lemma week_index_inj (d1 d2 : string) :
  d1 ∈ week_letters -> d2 ∈ week_letters ->
  week_index d1 = week_index d2 -> d1 = d2.
Proof.
  unfold week_letters. rewrite !elem_of_cons, !elem_of_nil.
  intros [-> | [-> | [-> | [-> | [-> | [-> | [-> | []]]]]]]]
         [-> | [-> | [-> | [-> | [-> | [-> | [-> | []]]]]]]];
    vm_compute; intros H; first [reflexivity | discriminate H].
Qed.

Lemma week_letters_StronglySorted :
  StronglySorted key_le (map keyed_day week_letters).
Proof.
  vm_compute. repeat (constructor; [|repeat constructor; unfold key_le; simpl; lia]).
  constructor.
Qed.

Lemma week_letters_NoDup : NoDup week_letters.
Proof.
  unfold week_letters. repeat constructor;
    rewrite ?elem_of_cons, ?elem_of_nil; intuition discriminate.
Qed.

Lemma in_week_order_Permutation (w : Weekdays) :
  days w ⊆ list_to_set week_letters ->
  in_week_order w ≡ₚ elements (days w).
Proof.
  intros Hsub. apply NoDup_Permutation.
  - apply NoDup_filter, week_letters_NoDup.
  - apply NoDup_elements.
  - intros d. unfold in_week_order.
    rewrite list_elem_of_filter, elem_of_elements. split; [tauto|].
    intros Hd. split; [exact Hd|].
    apply Hsub in Hd. apply elem_of_list_to_set in Hd. exact Hd.
Qed.

Lemma sorted_by_week_order (w : Weekdays) (iteration : list string) :
  days w ⊆ list_to_set week_letters ->
  iteration ≡ₚ elements (days w) ->
  sorted_by (str_index CHARS) iteration = Ok (in_week_order w).
Proof.
  intros Hsub Hperm.
  assert (Hletters : forall d, d ∈ iteration -> d ∈ week_letters).
  { intros d Hd. rewrite Hperm in Hd. apply elem_of_elements in Hd.
    apply Hsub in Hd. apply elem_of_list_to_set in Hd. exact Hd. }
  unfold sorted_by. rewrite keyed_all_found.
  2: { apply Forall_forall. intros d Hd. apply week_letters_found, Hletters, Hd. }
  f_equal.
  assert (Hsorted : sort_keyed (map keyed_day iteration) = map keyed_day (in_week_order w)).
  { apply (StronglySorted_unique_strong key_le).
    - intros x1 x2 H1 H2 H12 H21.
      rewrite sort_keyed_Permutation in H1.
      apply list_elem_of_fmap in H1 as (d1 & -> & Hd1).
      apply list_elem_of_fmap in H2 as (d2 & -> & Hd2).
      apply list_elem_of_filter in Hd2 as [_ Hd2].
      unfold key_le, keyed_day in *. simpl in H12, H21.
      f_equal; [lia|].
      apply week_index_inj; [apply Hletters, Hd1 | exact Hd2 | lia].
    - apply sort_keyed_StronglySorted.
    - unfold in_week_order.
      apply (StronglySorted_fmap keyed_day
               (fun a b => key_le (keyed_day a) (keyed_day b)) key_le).
      + auto.
      + apply StronglySorted_filter.
        generalize week_letters_StronglySorted. generalize week_letters.
        induction l as [|x l IH]; [constructor|].
        cbn [map]. intros Hs. apply StronglySorted_inv in Hs as [Hl Hx].
        constructor; [apply IH, Hl|].
        apply Forall_forall. intros y Hy. rewrite Forall_forall in Hx.
        apply Hx. apply (list_elem_of_fmap_2 keyed_day), Hy.
    - rewrite sort_keyed_Permutation.
      apply fmap_Permutation.
      rewrite Hperm, in_week_order_Permutation by exact Hsub. reflexivity. }
  rewrite Hsorted, map_map. unfold keyed_day. cbn [snd]. apply map_id.
Qed.

(** X17.  For a [Weekdays] that holds one-letter day codes only,
    [__str__] returns those letters in the order of the week, each
    once, and the result does not depend on the order in which the set
    hands out its elements. *)
Theorem Weekdays_str_week_order (w : Weekdays) :
  days w ⊆ list_to_set week_letters ->
  Weekdays_str w = Ok (join "" (in_week_order w)) /\
  forall iteration,
    iteration ≡ₚ elements (days w) ->
    Weekdays_str_in iteration = Ok (join "" (in_week_order w)).
Proof.
  intros Hsub.
  assert (Hin : forall iteration,
             iteration ≡ₚ elements (days w) ->
             Weekdays_str_in iteration = Ok (join "" (in_week_order w))).
  { intros iteration Hperm. unfold Weekdays_str_in.
    rewrite (sorted_by_week_order w iteration Hsub Hperm). reflexivity. }
  split; [apply Hin; reflexivity | exact Hin].
Qed.

Lemma Weekdays_str_week_order_witness :
  Weekdays_str monday_wednesday = Ok (join "" (in_week_order monday_wednesday)) /\
  forall iteration,
    iteration ≡ₚ elements (days monday_wednesday) ->
    Weekdays_str_in iteration = Ok (join "" (in_week_order monday_wednesday)).
Proof.
  apply (Weekdays_str_week_order monday_wednesday).
  apply (bool_decide_unpack (days monday_wednesday ⊆ list_to_set week_letters)).
  vm_compute. exact I.
Defined.

Example Weekdays_str_monday_wednesday :
  Weekdays_str monday_wednesday = Ok "MW" /\
  Weekdays_str_in ["W"; "M"] = Ok "MW" /\
  Weekdays_str_in ["M"; "W"] = Ok "MW".
Proof. repeat split; vm_compute; reflexivity. Qed.

(** X18.  [Weekdays.__str__] returns exactly when every element of the
    set is a piece of "MTWRFSU" (the test [add_day] applies), and raises
    [ValueError] as soon as one element is not, in whatever order the
    set hands out its elements. *)
Theorem Weekdays_str_returns_iff_days_valid (iteration : list string) :
  (Forall (fun d => str_in d CHARS = true) iteration ->
     exists s, Weekdays_str_in iteration = Ok s) /\
  (Exists (fun d => str_in d CHARS = false) iteration ->
     Weekdays_str_in iteration = Raise (PyExc ValueError)).
Proof.
  unfold Weekdays_str_in, sorted_by. split.
  - intros Hall. rewrite keyed_all_found; [eauto|].
    eapply Forall_impl; [exact Hall|]. intros d Hd. apply str_find_in, Hd.
  - intros Hex. rewrite keyed_one_missing; [reflexivity|].
    eapply Exists_impl; [exact Hex|]. intros d Hd. cbv beta in Hd |- *.
    destruct (str_find d CHARS) eqn:E; [|reflexivity].
    assert (Hsome : is_Some (str_find d CHARS)) by (rewrite E; eauto).
    apply str_find_in in Hsome. congruence.
Qed.

(** *** [Subterm.__str__] *)

Lemma fractions_included (s : Subterm) :
  fractions s = map (fraction (length (subterms s))) (included_from 0 (subterms s)).
Proof.
  unfold fractions. generalize (length (subterms s)) as n.
  generalize 0%nat as start. generalize (subterms s) as slots.
  induction slots as [|b slots IH]; intros start n; [reflexivity|].
  cbn [enumerate_from flat_map included_from]. rewrite IH.
  destruct b; reflexivity.
Qed.

Lemma included_from_ge (start : nat) (slots : list bool) (i : nat) :
  i ∈ included_from start slots -> (start <= i)%nat.
Proof.
  revert start. induction slots as [|b slots IH]; intros start; cbn [included_from].
  - intros H. apply elem_of_nil in H. destruct H.
  - destruct b.
    + rewrite elem_of_cons. intros [-> | H]; [lia|]. apply IH in H. lia.
    + intros H. apply IH in H. lia.
Qed.

(** The slots are determined by their number and the positions of the
    included ones. *)
Lemma included_from_inj (start : nat) (l1 l2 : list bool) :
  length l1 = length l2 ->
  included_from start l1 = included_from start l2 -> l1 = l2.
Proof.
  revert start l2. induction l1 as [|b1 l1 IH]; intros start [|b2 l2] Hlen H;
    try discriminate; [reflexivity|].
  injection Hlen as Hlen. cbn [included_from] in H.
  destruct b1, b2.
  - injection H as H. f_equal. eapply IH; eauto.
  - exfalso. assert (Hin : start ∈ included_from (S start) l2).
    { rewrite <- H. left. }
    apply included_from_ge in Hin. lia.
  - exfalso. assert (Hin : start ∈ included_from (S start) l1).
    { rewrite H. left. }
    apply included_from_ge in Hin. lia.
  - f_equal. eapply IH; eauto.
Qed.

Lemma included_from_true (start : nat) (slots : list bool) :
  true ∈ slots -> included_from start slots <> [].
Proof.
  revert start. induction slots as [|b slots IH]; intros start Hin.
  - apply elem_of_nil in Hin. destruct Hin.
  - cbn [included_from]. destruct b; [discriminate|].
    apply elem_of_cons in Hin as [Hin | Hin]; [discriminate|]. apply IH, Hin.
Qed.

Lemma all_digits_app_false (a : string) (c : ascii) (r : string) :
  is_digit c = false -> all_digits (a ++ String c r) = false.
Proof.
  intros Hc. induction a as [|x a IH]; simpl.
  - rewrite Hc. reflexivity.
  - rewrite IH. apply andb_false_r.
Qed.

Lemma join_cons2 (sep p q : string) (rest : list string) :
  join sep (p :: q :: rest) = p ++ sep ++ join sep (q :: rest).
Proof. reflexivity. Qed.

Lemma append_assoc (a b c : string) : (a ++ b) ++ c = a ++ (b ++ c).
Proof.
  induction a as [|x a IH]; [reflexivity|].
  change (String x ((a ++ b) ++ c) = String x (a ++ (b ++ c))). f_equal. exact IH.
Qed.

Lemma fraction_alone (n i : nat) :
  fraction n i = format_int (Z.of_nat i + 1) ++ String "/" (format_int (Z.of_nat n)).
Proof. reflexivity. Qed.

Lemma fraction_app (n i : nat) (r : string) :
  fraction n i ++ r
    = format_int (Z.of_nat i + 1) ++ String "/" (format_int (Z.of_nat n) ++ r).
Proof. unfold fraction. rewrite !append_assoc. reflexivity. Qed.

Lemma comma_space_app (r : string) : ", " ++ r = String "," (String " " r).
Proof. reflexivity. Qed.

(** A printed list of fractions determines the denominator and the
    numerators. *)
Lemma join_fractions_inj (n1 n2 : nat) (is1 is2 : list nat) :
  is1 <> [] -> is2 <> [] ->
  join ", " (map (fraction n1) is1) = join ", " (map (fraction n2) is2) ->
  n1 = n2 /\ is1 = is2.
Proof.
  assert (Hdig : forall k : nat, all_digits (format_int (Z.of_nat k)) = true).
  { intros k. apply format_int_digits. lia. }
  assert (Hdig1 : forall k : nat, all_digits (format_int (Z.of_nat k + 1)) = true).
  { intros k. apply format_int_digits. lia. }
  revert is2. induction is1 as [|i1 is1 IH]; intros is2 Hne1 Hne2 H;
    [congruence|].
  destruct is2 as [|i2 is2]; [congruence|].
  destruct is1 as [|j1 is1], is2 as [|j2 is2]; cbn [map] in H;
    rewrite ?join_cons2, ?fraction_app, ?comma_space_app in H;
    cbn [join] in H; rewrite ?fraction_alone in H.
  - apply digits_split in H as [Hi Hn]; auto.
    apply format_int_inj in Hi, Hn. split; [lia | f_equal; lia].
  - exfalso. apply digits_split in H as [_ Hn]; auto.
    pose proof (Hdig n1) as Hd. rewrite Hn in Hd.
    rewrite all_digits_app_false in Hd by reflexivity. discriminate.
  - exfalso. apply digits_split in H as [_ Hn]; auto.
    pose proof (Hdig n2) as Hd. rewrite <- Hn in Hd.
    rewrite all_digits_app_false in Hd by reflexivity. discriminate.
  - apply digits_split in H as [Hi H]; auto.
    apply digits_split in H as [Hn H]; auto.
    injection H as H.
    apply format_int_inj in Hi, Hn.
    destruct (IH (j2 :: is2)) as [_ Hrest]; [discriminate | discriminate | |].
    { cbn [map]. rewrite ?join_cons2, ?fraction_app, ?comma_space_app.
      cbn [join]. rewrite ?fraction_alone. exact H. }
    split; [lia|]. f_equal; [lia | exact Hrest].
Qed.

(** X19.  [Subterm.__str__] tells subterms apart: two subterms that
    each include at least one slot, as every constructed [Subterm]
    does, and print alike are the same. *)
Theorem Subterm_str_injective (s1 s2 : Subterm) :
  true ∈ subterms s1 -> true ∈ subterms s2 ->
  Subterm_str s1 = Subterm_str s2 -> s1 = s2.
Proof.
  intros H1 H2. unfold Subterm_str. rewrite !fractions_included. intros H.
  apply join_fractions_inj in H as [Hlen Hinc];
    [|apply included_from_true; assumption..].
  apply included_from_inj in Hinc; [|exact Hlen].
  destruct s1, s2; simpl in *; congruence.
Qed.

Lemma Subterm_str_injective_witness :
  {| subterms := [false; true; true] |} = {| subterms := [false; true; true] |}.
Proof.
  apply (Subterm_str_injective {| subterms := [false; true; true] |}
           {| subterms := [false; true; true] |}).
  - right. left.
  - right. left.
  - reflexivity.
Defined.

Example Subterm_str_samples :
  Subterm_str {| subterms := [true] |} = "1/1" /\
  Subterm_str {| subterms := [false; true] |} = "2/2" /\
  Subterm_str {| subterms := [true; true; false] |} = "1/3, 2/3".
Proof. repeat split; vm_compute; reflexivity. Qed.

(** ** General forms of the error behaviour *)

(** X20.  [set_weekdays] on a [Weekdays] returns exactly when the set
    is empty, and then stores it; for a set with a day in it the call
    raises [MaintainerError] and the meeting keeps the weekdays it
    had. *)
Theorem set_weekdays_returns_iff_empty (w : Weekdays) (m : Meeting) :
  (snd (set_weekdays (PWeekdays w) m) = Ok tt <-> days w = ∅) /\
  (days w = ∅ -> weekdays (fst (set_weekdays (PWeekdays w) m)) = Some w) /\
  (days w <> ∅ ->
     set_weekdays (PWeekdays w) m
       = (m, Raise (MaintainerError "set_weekdays got empty Weekdays"))).
Proof.
  rewrite set_weekdays_inverted. case_bool_decide as Hw; cbn [fst snd].
  - repeat split; auto. intros Hne. contradiction.
  - repeat split; try discriminate; try contradiction; auto.
Qed.

